(** * Polly-API client helpers: a shallow embedding and its properties

    The Python sources under [src/api_client] are embedded function by
    function:
    - [get_poll_results.py]: [get_poll_results],
      [get_poll_results_with_error_handling], [format_poll_results],
      [get_poll_results_summary];
    - [fetch_polls.py]: [fetch_polls];
    - [vote_poll.py]: [vote_on_poll], [login_and_get_token];
    - [register_user.py]: [register_user].

    Python [int] is [Z]; Python [str] is [string], one [ascii] standing for one
    character; Python [float] is an IEEE 754 binary64 value written out over
    [Z]; exceptions are the [Raise] case of a result type. The dict that
    [format_poll_results] reads is a record of the [PollResults] schema whose
    fields may be missing; a decoded JSON body is a [pyobj]. The [requests]
    library is an oracle from requests to outcomes, and every request that is
    sent is appended to a log. *)

From Stdlib Require Import ZArith List String Ascii Bool Lia.
From Stdlib Require Import Permutation Sorted DecimalString.
From Stdlib Require Import Uint63 PrimFloat SpecFloat FloatOps.
From Stdlib Require DecimalPos DecimalZ.
Import ListNotations.

Local Open Scope string_scope.
Local Open Scope Z_scope.

Set Warnings "-register-all".

(** ** Python values and exceptions *)

(** What [response.json()] can produce (numbers restricted to integers). The
    Python [None] is [PNone]; a [dict] keeps its items in insertion order. *)
Inductive pyobj : Type :=
| PNone
| PBool (b : bool)
| PInt (z : Z)
| PStr (s : string)
| PList (items : list pyobj)
| PDict (items : list (string * pyobj)).

(** The exception classes the sources raise, catch or let through.
    [RequestException] stands for the base class of [requests.exceptions] and
    for those of its subclasses no handler singles out. *)
Inductive exn : Type :=
| ValueError (args : list pyobj)
| KeyError (key : string)
| TypeError (msg : string)
| ZeroDivisionError (msg : string)
| OverflowError (msg : string)
| RequestException (msg : string)
| HTTPError (msg : string)
| ConnectionError (msg : string)
| Timeout (msg : string)
| ConnectTimeout (msg : string)
| JSONDecodeError (msg : string)
| OtherException (msg : string).

Inductive result (A : Type) : Type :=
| Ok (a : A)
| Raise (e : exn).
Arguments Ok {A} a.
Arguments Raise {A} e.

Definition rbind {A B : Type} (r : result A) (k : A -> result B) : result B :=
  match r with
  | Ok a => k a
  | Raise e => Raise e
  end.

Declare Scope result_scope.
Delimit Scope result_scope with result.
Notation "x <- r ;; k" := (rbind r (fun x => k))
  (at level 61, r at next level, right associativity) : result_scope.

Fixpoint rmap {A B : Type} (f : A -> result B) (l : list A) : result (list B) :=
  match l with
  | [] => Ok []
  | a :: l' =>
      (b <- f a ;; bs <- rmap f l' ;; Ok (b :: bs))%result
  end.

(** ** Text *)

(** [str(n)] for an [int]. *)
Definition str_of_int (n : Z) : string :=
  NilZero.string_of_int (Z.to_int n).

(** [s * n] for a one-character string. *)
Fixpoint repeat_string (s : string) (n : nat) : string :=
  match n with
  | O => ""
  | S n' => s ++ repeat_string s n'
  end.

Fixpoint concat_strings (l : list string) : string :=
  match l with
  | [] => ""
  | s :: l' => s ++ concat_strings l'
  end.

Fixpoint starts_with (p s : string) : bool :=
  match p, s with
  | EmptyString, _ => true
  | String a p', String b s' => Ascii.eqb a b && starts_with p' s'
  | String _ _, EmptyString => false
  end.

(** [needle in hay]. *)
Fixpoint contains (needle hay : string) : bool :=
  starts_with needle hay ||
  match hay with
  | EmptyString => false
  | String _ hay' => contains needle hay'
  end.

Definition newline : string := String (ascii_of_nat 10) "".

(** ** Python floats *)

Module PyFloat.

(** A binary64 value: [Finite neg m e] is [(-1)^neg * m * 2^e] with
    [0 <= m <= 2^53] and [-1074 <= e <= 971]; [Infinity neg] is [inf] or
    [-inf]. No operation below produces a NaN. *)
Inductive float : Type :=
| Finite (neg : bool) (m e : Z)
| Infinity (neg : bool).

(** Nearest integer to [num / den], ties to even ([0 <= num], [0 < den]). *)
Definition round_half_even (num den : Z) : Z :=
  let q := num / den in
  match (2 * (num mod den)) ?= den with
  | Lt => q
  | Gt => q + 1
  | Eq => if Z.even q then q else q + 1
  end.

(** Nearest integer to [n / (d * 2^e)], ties to even. *)
Definition scaled_round (n d e : Z) : Z :=
  if 0 <=? e then round_half_even n (d * 2 ^ e)
  else round_half_even (n * 2 ^ (- e)) d.

(** [floor (log2 (n / d))] for [0 < n] and [0 < d]. *)
Definition floor_log2_ratio (n d : Z) : Z :=
  let k := Z.log2 n - Z.log2 d in
  let reached := if 0 <=? k then d * 2 ^ k <=? n else d <=? n * 2 ^ (- k) in
  if reached then k else k - 1.

(** The binary64 value nearest to [n / d] ([0 <= n], [0 < d]), ties to even,
    with gradual underflow; [None] when the rounded value is [2^1024] or
    more. A mantissa that rounds up to [2^53] is renormalised. *)
Definition round_to_double (neg : bool) (n d : Z) : option float :=
  if n =? 0 then Some (Finite neg 0 0)
  else
    let e := Z.max (floor_log2_ratio n d - 52) (-1074) in
    if 971 <? e then None
    else
      let m := scaled_round n d e in
      if m =? 2 ^ 53
      then if e =? 971 then None else Some (Finite neg (2 ^ 52) (e + 1))
      else Some (Finite neg m e).

(** [a / b] on two [int]s: the correctly rounded quotient. *)
Definition int_truediv (a b : Z) : result float :=
  if b =? 0 then Raise (ZeroDivisionError "division by zero")
  else
    let neg := xorb (a <? 0) (b <? 0) in
    match round_to_double neg (Z.abs a) (Z.abs b) with
    | Some x => Ok x
    | None => Raise (OverflowError "integer division result too large for a float")
    end.

(** [x * k] for a float [x] and a positive [int] [k] that is itself a
    binary64 value (here [100]); overflow gives an infinity. *)
Definition mul_int (x : float) (k : Z) : float :=
  match x with
  | Infinity neg => Infinity neg
  | Finite neg m e =>
      let r := if 0 <=? e then round_to_double neg (m * k * 2 ^ e) 1
               else round_to_double neg (m * k) (2 ^ (- e)) in
      match r with
      | Some y => y
      | None => Infinity neg
      end
  end.

(** [format(x, ".1f")]: the exact value rounded to one decimal, ties to
    even. *)
Definition format_1f (x : float) : string :=
  match x with
  | Infinity neg => if neg then "-inf" else "inf"
  | Finite neg m e =>
      let t := scaled_round (m * 10) 1 (- e) in
      (if neg then "-" else "") ++ str_of_int (t / 10) ++ "." ++ str_of_int (t mod 10)
  end.

End PyFloat.

(** The same percentage on Rocq's primitive binary64 floats, for operands
    below [2^53], which [float(a)] represents exactly: the kernel's IEEE 754
    division and multiplication, read back as sign, mantissa and exponent. *)
Definition primitive_percentage (a b : Z) : spec_float :=
  Prim2SF (PrimFloat.mul
             (PrimFloat.div (PrimFloat.of_uint63 (Uint63.of_Z a))
                            (PrimFloat.of_uint63 (Uint63.of_Z b)))
             (PrimFloat.of_uint63 (Uint63.of_Z 100))).

Definition to_spec_float (x : PyFloat.float) : spec_float :=
  match x with
  | PyFloat.Finite neg (Zpos m) e => S754_finite neg m e
  | PyFloat.Finite neg _ _ => S754_zero neg
  | PyFloat.Infinity neg => S754_infinity neg
  end.

Definition spec_float_eqb (x y : spec_float) : bool :=
  match x, y with
  | S754_zero s, S754_zero s' => Bool.eqb s s'
  | S754_infinity s, S754_infinity s' => Bool.eqb s s'
  | S754_finite s m e, S754_finite s' m' e' =>
      Bool.eqb s s' && Pos.eqb m m' && Z.eqb e e'
  | _, _ => false
  end.

(** [a / b * 100] on the model gives the very float the primitives give. *)
Definition agrees_with_primitive (a b : Z) : bool :=
  match PyFloat.int_truediv a b with
  | Ok x => spec_float_eqb (to_spec_float (PyFloat.mul_int x 100))
              (primitive_percentage a b)
  | Raise _ => false
  end.

Definition upto (n : nat) : list Z := map Z.of_nat (seq 0 n).

(** ** The results report ([get_poll_results.py]) *)

(** The dicts of the [PollResults] schema. A key the dict does not hold is
    [None], so that [d.get(key, default)] is a [match] on the field. *)
Record OptionTally : Type := {
  option_id : option Z;
  text : option string;
  vote_count : option Z
}.

Record PollResultsReport : Type := {
  poll_id : option Z;
  question : option string;
  results : option (list OptionTally)
}.

(** [not d] for a report dict: it holds no key at all. *)
Definition dict_is_empty (d : PollResultsReport) : bool :=
  match poll_id d, question d, results d with
  | None, None, None => true
  | _, _, _ => false
  end.

(** [x.get("vote_count", 0)]: the sort key and the summand. *)
Definition get_vote_count (x : OptionTally) : Z :=
  match vote_count x with
  | Some n => n
  | None => 0
  end.

(** [sorted(l, key=key, reverse=True)]: descending by key, and stable, as
    Python's [sorted] is also with [reverse=True]. Each element goes in front
    of the first later element whose key is not greater than its own. *)
Fixpoint insert_desc {A : Type} (key : A -> Z) (x : A) (l : list A) : list A :=
  match l with
  | [] => [x]
  | y :: l' => if key x <? key y then y :: insert_desc key x l' else x :: y :: l'
  end.

Definition sorted_reverse {A : Type} (key : A -> Z) (l : list A) : list A :=
  fold_right (insert_desc key) [] l.

(** [sum(key(x) for x in l)]. *)
Definition sum_by {A : Type} (key : A -> Z) (l : list A) : Z :=
  fold_left (fun acc x => acc + key x) l 0.

(** [enumerate(l, start)]. *)
Fixpoint enumerate {A : Type} (start : Z) (l : list A) : list (Z * A) :=
  match l with
  | [] => []
  | x :: l' => (start, x) :: enumerate (start + 1) l'
  end.

(** The value bound to [percentage]: a float, or the [int] [0]. *)
Inductive number : Type :=
| NInt (z : Z)
| NFloat (x : PyFloat.float).

(** [f"{p:.1f}"]: an [int] is converted to a float first. *)
Definition format_number_1f (p : number) : result string :=
  match p with
  | NFloat x => Ok (PyFloat.format_1f x)
  | NInt z =>
      match PyFloat.round_to_double (z <? 0) (Z.abs z) 1 with
      | Some x => Ok (PyFloat.format_1f x)
      | None => Raise (OverflowError "int too large to convert to float")
      end
  end.

(** [(vote_count / total_votes * 100) if total_votes > 0 else 0]. *)
Definition percentage (vote_count total_votes : Z) : result number :=
  if 0 <? total_votes
  then (q <- PyFloat.int_truediv vote_count total_votes ;;
        Ok (NFloat (PyFloat.mul_int q 100)))%result
  else Ok (NInt 0).

(** The first line of the report, [f"Poll #{poll_id}: {question}\n"]. *)
Definition header_line (d : PollResultsReport) : string :=
  let poll_id := match poll_id d with Some n => str_of_int n | None => "Unknown" end in
  let question := match question d with Some q => q | None => "Unknown question" end in
  "Poll #" ++ poll_id ++ ": " ++ question ++ newline.

(** The header with its underline and the blank line after it. *)
Definition header (d : PollResultsReport) : string :=
  let output := header_line d in
  output ++ repeat_string "=" (String.length output - 1) ++ newline ++ newline.

(** The three lines one pass of the [for] loop appends. *)
Definition option_block (total_votes : Z) (entry : Z * OptionTally) : result string :=
  let (i, result) := entry in
  let option_id := match option_id result with Some n => str_of_int n | None => "Unknown" end in
  let text := match text result with Some s => s | None => "Unknown option" end in
  let vote_count := get_vote_count result in
  (p <- percentage vote_count total_votes ;;
   shown <- format_number_1f p ;;
   Ok (str_of_int i ++ ". " ++ text ++ newline ++
       "   Votes: " ++ str_of_int vote_count ++ " (" ++ shown ++ "%)" ++ newline ++
       "   Option ID: " ++ option_id ++ newline ++ newline))%result.

Definition total_line (total_votes : Z) : string :=
  "Total votes: " ++ str_of_int total_votes ++ newline ++ newline.

(** [format_poll_results(results_data)]; [None] is the Python [None]. *)
Definition format_poll_results (results_data : option PollResultsReport) : result string :=
  match results_data with
  | None => Ok "No results data available"
  | Some d =>
      if dict_is_empty d then Ok "No results data available"
      else
        let results := match results d with Some l => l | None => [] end in
        let output := header d in
        match results with
        | [] => Ok (output ++ "No votes cast yet." ++ newline)
        | _ :: _ =>
            let sorted_results := sorted_reverse get_vote_count results in
            let total_votes := sum_by get_vote_count sorted_results in
            let output := output ++ total_line total_votes in
            (blocks <- rmap (option_block total_votes) (enumerate 1 sorted_results) ;;
             Ok (output ++ concat_strings blocks))%result
        end
  end.

(** ** The [requests] library *)

Inductive http_method : Type := GET | POST.

(** One call of [requests.get] or [requests.post] with its keyword
    arguments. *)
Record request : Type := {
  req_method : http_method;
  req_url : string;
  req_params : list (string * pyobj);
  req_json : option pyobj;
  req_data : list (string * string);
  req_headers : list (string * string)
}.

(** What the sources read of a [Response]; [resp_json] is what calling
    [response.json()] does, a parsed body or the decoding error raised. *)
Record response : Type := {
  status_code : Z;
  reason : string;
  resp_url : string;
  resp_json : result pyobj
}.

(** A call either returns a response or raises. *)
Inductive outcome : Type :=
| Responds (r : response)
| Fails (e : exn).

(** [isinstance(e, requests.exceptions.RequestException)]. The decoding
    error of [requests] 2.27 and later is one ([decode_is_request_exception]),
    the one of [json] raised by earlier versions is not. *)
Definition is_request_exception (decode_is_request_exception : bool) (e : exn) : bool :=
  match e with
  | RequestException _ | HTTPError _ | ConnectionError _ | Timeout _
  | ConnectTimeout _ => true
  | JSONDecodeError _ => decode_is_request_exception
  | _ => false
  end.

Definition is_connection_error (e : exn) : bool :=
  match e with
  | ConnectionError _ | ConnectTimeout _ => true
  | _ => false
  end.

Definition is_timeout (e : exn) : bool :=
  match e with
  | Timeout _ | ConnectTimeout _ => true
  | _ => false
  end.

Definition is_json_decode_error (e : exn) : bool :=
  match e with
  | JSONDecodeError _ => true
  | _ => false
  end.

(** [response.raise_for_status()]: raises for 4xx and 5xx only. *)
Definition raise_for_status (r : response) : result unit :=
  let code := status_code r in
  if (400 <=? code) && (code <? 500)
  then Raise (HTTPError (str_of_int code ++ " Client Error: " ++ reason r ++
                         " for url: " ++ resp_url r))
  else if (500 <=? code) && (code <? 600)
  then Raise (HTTPError (str_of_int code ++ " Server Error: " ++ reason r ++
                         " for url: " ++ resp_url r))
  else Ok tt.

(** [key in d] and [d[key]] on the items of a dict (keys are distinct). *)
Fixpoint dict_get (key : string) (items : list (string * pyobj)) : option pyobj :=
  match items with
  | [] => None
  | (k, v) :: items' => if String.eqb k key then Some v else dict_get key items'
  end.

(** [o[key]] for a string key. *)
Definition getitem (o : pyobj) (key : string) : result pyobj :=
  match o with
  | PDict items =>
      match dict_get key items with
      | Some v => Ok v
      | None => Raise (KeyError key)
      end
  | PStr _ => Raise (TypeError "string indices must be integers")
  | PList _ => Raise (TypeError "list indices must be integers or slices, not str")
  | _ => Raise (TypeError "object is not subscriptable")
  end.

(** Computations that may send requests: the log of the requests sent so far
    is threaded through, an exception ends the computation. *)
Definition io (A : Type) : Type := list request -> result A * list request.

Definition ret {A : Type} (a : A) : io A := fun log => (Ok a, log).

Definition raise {A : Type} (e : exn) : io A := fun log => (Raise e, log).

Definition bind {A B : Type} (c : io A) (k : A -> io B) : io B :=
  fun log =>
    match c log with
    | (Ok a, log') => k a log'
    | (Raise e, log') => (Raise e, log')
    end.

Definition lift {A : Type} (r : result A) : io A := fun log => (r, log).

(** [try: c except ...:] where [handler e] is the body of the first clause
    that matches [e], and [None] when no clause does. *)
Definition try_except {A : Type} (c : io A) (handler : exn -> option (io A)) : io A :=
  fun log =>
    match c log with
    | (Ok a, log') => (Ok a, log')
    | (Raise e, log') =>
        match handler e with
        | Some h => h log'
        | None => (Raise e, log')
        end
    end.

Declare Scope io_scope.
Delimit Scope io_scope with io.
Notation "x <- c ;; k" := (bind c (fun x => k))
  (at level 61, c at next level, right associativity) : io_scope.

Definition mk_get (url : string) (params : list (string * pyobj)) : request :=
  {| req_method := GET; req_url := url; req_params := params;
     req_json := None; req_data := []; req_headers := [] |}.

Definition mk_post (url : string) (json : option pyobj)
    (data : list (string * string)) (headers : list (string * string)) : request :=
  {| req_method := POST; req_url := url; req_params := [];
     req_json := json; req_data := data; req_headers := headers |}.

(** ** The client operations *)

Section Client.

(** The world outside the client: what the network and the server do with
    each request, the text [str(e)] of an exception, and whether the installed
    [requests] raises its own decoding error. *)
Variable server : request -> outcome.
Variable str_exn : exn -> string.
Variable decode_is_request_exception : bool.

(** [requests.get] and [requests.post]: the request is logged, then answered. *)
Definition send (req : request) : io response :=
  fun log =>
    (match server req with
     | Responds r => Ok r
     | Fails e => Raise e
     end, (log ++ [req])%list).

Definition requests_get (url : string) (params : list (string * pyobj)) : io response :=
  send (mk_get url params).

Definition requests_post (url : string) (json : option pyobj)
    (data : list (string * string)) (headers : list (string * string)) : io response :=
  send (mk_post url json data headers).

(** [except requests.exceptions.RequestException as e: raise
    requests.exceptions.RequestException(msg(e))]. *)
Definition reraise_request_exception {A : Type} (msg : exn -> string)
    (e : exn) : option (io A) :=
  if is_request_exception decode_is_request_exception e
  then Some (raise (RequestException (msg e)))
  else None.

(** [get_poll_results.py] *)

Definition get_poll_results (poll_id : Z) (base_url : string) : io pyobj :=
  let url := base_url ++ "/polls/" ++ str_of_int poll_id ++ "/results" in
  if (poll_id =? 0) || (poll_id <=? 0)
  then raise (ValueError [PStr "Poll ID must be a positive integer"])
  else
    try_except
      (response <- requests_get url [] ;;
       if status_code response =? 200 then lift (resp_json response)
       else if status_code response =? 404
       then raise (ValueError [PStr "Poll not found"])
       else (_ <- lift (raise_for_status response) ;; ret PNone))%io
      (reraise_request_exception
         (fun e => "Failed to get poll results: " ++ str_exn e)).

(** The triple [(success, results_data, error_message)]. *)
Definition get_poll_results_with_error_handling (poll_id : Z) (base_url : string)
    : io (bool * pyobj * pyobj) :=
  let url := base_url ++ "/polls/" ++ str_of_int poll_id ++ "/results" in
  if (poll_id =? 0) || (poll_id <=? 0)
  then ret (false, PNone, PStr "Poll ID must be a positive integer")
  else
    try_except
      (response <- requests_get url [] ;;
       if status_code response =? 200
       then (results_data <- lift (resp_json response) ;;
             ret (true, results_data, PNone))
       else if status_code response =? 404
       then ret (false, PNone, PStr "Poll not found")
       else
         let error_message :=
           PStr ("HTTP " ++ str_of_int (status_code response) ++ ": " ++ reason response) in
         let error_message :=
           match resp_json response with
           | Ok (PDict error_detail) =>
               match dict_get "detail" error_detail with
               | Some detail => detail
               | None => error_message
               end
           | _ => error_message
           end in
         ret (false, PNone, error_message))%io
      (fun e =>
         if is_connection_error e
         then Some (ret (false, PNone,
                         PStr "Connection error: Could not connect to the server"))
         else if is_timeout e
         then Some (ret (false, PNone,
                         PStr "Request timeout: Server took too long to respond"))
         else if is_request_exception decode_is_request_exception e
         then Some (ret (false, PNone, PStr ("Request error: " ++ str_exn e)))
         else if is_json_decode_error e
         then Some (ret (false, PNone, PStr "Invalid JSON response from server"))
         else Some (ret (false, PNone, PStr ("Unexpected error: " ++ str_exn e)))).

(** [get_poll_results_summary]; [formatter] is [format_poll_results] on the
    dict that [get_poll_results] returned. *)
Definition get_poll_results_summary (formatter : pyobj -> result string)
    (poll_id : Z) (base_url : string) : io string :=
  (results_data <- get_poll_results poll_id base_url ;;
   lift (formatter results_data))%io.

(** [fetch_polls.py] *)

Definition fetch_polls (skip limit : Z) (base_url : string) : io pyobj :=
  let url := base_url ++ "/polls" in
  if skip <? 0
  then raise (ValueError [PInt 400; PStr "Skip parameter must be non-negative"])
  else if limit <=? 0
  then raise (ValueError [PInt 400; PStr "Limit parameter must be positive"])
  else
    let params := [("skip", PInt skip); ("limit", PInt limit)] in
    try_except
      (response <- requests_get url params ;;
       if status_code response =? 200 then lift (resp_json response)
       else (_ <- lift (raise_for_status response) ;; ret PNone))%io
      (reraise_request_exception (fun _ => "Failed to fetch polls")).

(** [vote_poll.py] *)

Definition vote_on_poll (poll_id option_id : Z) (access_token base_url : string)
    : io pyobj :=
  let url := base_url ++ "/polls/" ++ str_of_int poll_id ++ "/vote" in
  if (poll_id =? 0) || (poll_id <=? 0)
  then raise (ValueError [PStr "Poll ID must be a positive integer"])
  else if (option_id =? 0) || (option_id <=? 0)
  then raise (ValueError [PStr "Option ID must be a positive integer"])
  else if String.eqb access_token ""
  then raise (ValueError [PStr "Access token is required for voting"])
  else
    let payload := PDict [("option_id", PInt option_id)] in
    let headers := [("Content-Type", "application/json");
                    ("Authorization", "Bearer " ++ access_token)] in
    try_except
      (response <- requests_post url (Some payload) [] headers ;;
       if status_code response =? 200 then lift (resp_json response)
       else if status_code response =? 401
       then raise (ValueError [PStr "Unauthorized: Invalid or expired access token"])
       else if status_code response =? 404
       then raise (ValueError [PStr "Poll or option not found"])
       else (_ <- lift (raise_for_status response) ;; ret PNone))%io
      (reraise_request_exception
         (fun e => "Failed to vote on poll: " ++ str_exn e)).

Definition login_and_get_token (username password base_url : string) : io pyobj :=
  let url := base_url ++ "/login" in
  let form_data := [("username", username); ("password", password)] in
  try_except
    (response <- requests_post url None form_data [] ;;
     if status_code response =? 200
     then (token_data <- lift (resp_json response) ;;
           lift (getitem token_data "access_token"))
     else if status_code response =? 400
     then raise (ValueError [PStr "Incorrect username or password"])
     else (_ <- lift (raise_for_status response) ;; ret PNone))%io
    (reraise_request_exception (fun e => "Failed to login: " ++ str_exn e)).

(** [register_user.py] *)

Definition register_user (username password base_url : string) : io pyobj :=
  let url := base_url ++ "/register" in
  if String.eqb username "" || String.eqb password ""
  then raise (ValueError [PInt 400; PStr "Username and password are required"])
  else
    let payload := PDict [("username", PStr username); ("password", PStr password)] in
    let headers := [("Content-Type", "application/json")] in
    (response <- requests_post url (Some payload) [] headers ;;
     if status_code response =? 200 then lift (resp_json response)
     else if status_code response =? 400
     then raise (ValueError [PInt 400; PStr "Username already registered"])
     else (_ <- lift (raise_for_status response) ;; ret PNone))%io.

End Client.

(** ** Specification vocabulary *)

(** The sum of the [vote_count] fields, a missing one counting as zero. *)
Definition votes_cast (results : list OptionTally) : Z :=
  fold_right (fun t s => match vote_count t with Some n => n | None => 0 end + s) 0 results.

(** The data-model invariant [vote_count >= 0]. *)
Definition nonneg_counts (results : list OptionTally) : Prop :=
  Forall (fun t => 0 <= get_vote_count t) results.

(** Ranked by key, greatest first. *)
Definition descending {A : Type} (key : A -> Z) (l : list A) : Prop :=
  StronglySorted (fun a b => key b <= key a) l.

(** [ranked] keeps, among the entries of any one key, the order of [l]. *)
Definition stable_wrt {A : Type} (key : A -> Z) (l ranked : list A) : Prop :=
  forall k : Z,
    filter (fun t => key t =? k) ranked = filter (fun t => key t =? k) l.

(** The URL of the results endpoint, [f"{base_url}/polls/{poll_id}/results"]. *)
Definition results_url (base_url : string) (poll_id : Z) : string :=
  base_url ++ "/polls/" ++ str_of_int poll_id ++ "/results".

(** ** Sample inputs *)

(** Sample tallies: option A with three votes, option B with one. *)
Definition tally_A : OptionTally :=
  {| option_id := Some 1; text := Some "A"; vote_count := Some 3 |}.

Definition tally_B : OptionTally :=
  {| option_id := Some 2; text := Some "B"; vote_count := Some 1 |}.

(** Sample tallies with counts 5, 5 and 2. *)
Definition tally_red : OptionTally :=
  {| option_id := Some 10; text := Some "Red"; vote_count := Some 5 |}.

Definition tally_green : OptionTally :=
  {| option_id := Some 11; text := Some "Green"; vote_count := Some 5 |}.

Definition tally_blue : OptionTally :=
  {| option_id := Some 12; text := Some "Blue"; vote_count := Some 2 |}.

Definition report_of (l : list OptionTally) : PollResultsReport :=
  {| poll_id := Some 7; question := Some "Colour?"; results := Some l |}.

(** The empty dict [{}]. *)
Definition empty_report : PollResultsReport :=
  {| poll_id := None; question := None; results := None |}.

Definition local_url : string := "http://localhost:8000".

Definition mk_response (code : Z) (phrase : string) (body : result pyobj) : response :=
  {| status_code := code; reason := phrase; resp_url := ""; resp_json := body |}.

(** A server that gives every request the same answer. *)
Definition always (r : response) : request -> outcome := fun _ => Responds r.

(** A reading of [str(e)]: the message the exception was built with. *)
Definition message_of (e : exn) : string :=
  match e with
  | ValueError [PStr msg] => msg
  | ValueError _ => ""
  | KeyError key => key
  | TypeError msg | ZeroDivisionError msg | OverflowError msg
  | RequestException msg | HTTPError msg | ConnectionError msg | Timeout msg
  | ConnectTimeout msg | JSONDecodeError msg | OtherException msg => msg
  end.

Definition no_body : result pyobj := Raise (JSONDecodeError "Expecting value").

Definition login_request (base_url username password : string) : request :=
  mk_post (base_url ++ "/login") None
    [("username", username); ("password", password)] [].

(** ** Further vocabulary *)

(** The title of a report, [f"Poll #{poll_id}: {question}"] without its
    newline. *)
Definition title (d : PollResultsReport) : string :=
  "Poll #" ++ match poll_id d with Some n => str_of_int n | None => "Unknown" end
  ++ ": " ++ match question d with Some q => q | None => "Unknown question" end.

(** The text between the parentheses of a block, before the percent sign. *)
Definition shown_percentage (vote_count total_votes : Z) : result string :=
  (p <- percentage vote_count total_votes ;; format_number_1f p)%result.

(** A tenths count [t] written with one decimal, as 1000 is "100.0". *)
Definition one_decimal (t : Z) : string :=
  str_of_int (t / 10) ++ "." ++ str_of_int (t mod 10).

(** The three lines of a block, given the percentage text to show. *)
Definition block_text (i : Z) (t : OptionTally) (shown : string) : string :=
  str_of_int i ++ ". "
  ++ match text t with Some s => s | None => "Unknown option" end ++ newline
  ++ "   Votes: " ++ str_of_int (get_vote_count t) ++ " (" ++ shown ++ "%)" ++ newline
  ++ "   Option ID: "
  ++ match option_id t with Some n => str_of_int n | None => "Unknown" end
  ++ newline ++ newline.

(** The requests the operations build. *)
Definition polls_request (base_url : string) (skip limit : Z) : request :=
  mk_get (base_url ++ "/polls") [("skip", PInt skip); ("limit", PInt limit)].

Definition results_request (base_url : string) (poll_id : Z) : request :=
  mk_get (results_url base_url poll_id) [].

Definition vote_request (base_url : string) (poll_id option_id : Z)
    (access_token : string) : request :=
  mk_post (base_url ++ "/polls/" ++ str_of_int poll_id ++ "/vote")
    (Some (PDict [("option_id", PInt option_id)])) []
    [("Content-Type", "application/json");
     ("Authorization", "Bearer " ++ access_token)].

Definition register_request (base_url username password : string) : request :=
  mk_post (base_url ++ "/register")
    (Some (PDict [("username", PStr username); ("password", PStr password)])) []
    [("Content-Type", "application/json")].

(** An integer that [str] can print under CPython's default limit on
    conversions between [int] and [str]: at most 4300 digits. *)
Definition within_str_digits (n : Z) : Prop := Z.abs n < 10 ^ 4300.

(** Every integer that [format_poll_results] prints for the results list [l]
    of the report [d] is within that limit: the poll id, the option ids, the
    total (hence, with non-negative counts, each count) and the rank
    numbers. *)
Definition printable_report (d : PollResultsReport) (l : list OptionTally) : Prop :=
  (forall n, poll_id d = Some n -> within_str_digits n) /\
  Forall (fun t => forall n, option_id t = Some n -> within_str_digits n) l /\
  within_str_digits (votes_cast l) /\
  within_str_digits (Z.of_nat (List.length l)).

(** A sample tally that holds no key. *)
Definition tally_blank : OptionTally :=
  {| option_id := None; text := None; vote_count := None |}.

(** ** Sorting and summing *)

Section Ranking.

Context {A : Type} (key : A -> Z).

Lemma insert_desc_perm (x : A) (l : list A) :
  Permutation (insert_desc key x l) (x :: l).
Proof.
  induction l as [|y l IH]; simpl.
  - apply Permutation_refl.
  - destruct (key x <? key y).
    + eapply perm_trans; [apply perm_skip, IH | apply perm_swap].
    + apply Permutation_refl.
Qed.

Lemma sorted_reverse_perm (l : list A) :
  Permutation (sorted_reverse key l) l.
Proof.
  induction l as [|x l IH]; simpl.
  - constructor.
  - eapply perm_trans; [apply insert_desc_perm | now apply perm_skip].
Qed.

Lemma insert_desc_descending (x : A) (l : list A) :
  descending key l -> descending key (insert_desc key x l).
Proof.
  unfold descending.
  induction l as [|y l IH]; simpl; intros Hs.
  - repeat constructor.
  - inversion Hs as [|? ? Hl Hy]; subst.
    destruct (key x <? key y) eqn:Hxy.
    + apply Z.ltb_lt in Hxy.
      constructor; [now apply IH |].
      eapply Permutation_Forall;
        [apply Permutation_sym, insert_desc_perm |].
      constructor; [lia | exact Hy].
    + apply Z.ltb_ge in Hxy.
      constructor; [exact Hs |].
      constructor; [exact Hxy |].
      eapply Forall_impl; [| exact Hy].
      simpl; intros; lia.
Qed.

Lemma sorted_reverse_descending (l : list A) :
  descending key (sorted_reverse key l).
Proof.
  induction l as [|x l IH]; simpl.
  - constructor.
  - now apply insert_desc_descending.
Qed.

Lemma insert_desc_filter (k : Z) (x : A) (l : list A) :
  filter (fun t => key t =? k) (insert_desc key x l)
  = filter (fun t => key t =? k) (x :: l).
Proof.
  induction l as [|y l IH]; [reflexivity|].
  simpl insert_desc.
  destruct (key x <? key y) eqn:Hxy; [|reflexivity].
  apply Z.ltb_lt in Hxy.
  change (filter (fun t => key t =? k) (y :: insert_desc key x l))
    with (if key y =? k
          then y :: filter (fun t => key t =? k) (insert_desc key x l)
          else filter (fun t => key t =? k) (insert_desc key x l)).
  rewrite IH. simpl.
  destruct (key y =? k) eqn:Hy, (key x =? k) eqn:Hx; try reflexivity.
  apply Z.eqb_eq in Hy, Hx. lia.
Qed.

Lemma sorted_reverse_stable (l : list A) :
  stable_wrt key l (sorted_reverse key l).
Proof.
  intros k.
  induction l as [|x l IH]; [reflexivity|].
  simpl sorted_reverse. rewrite insert_desc_filter.
  simpl. now rewrite IH.
Qed.

Lemma sum_by_from (l : list A) (a : Z) :
  fold_left (fun acc x => acc + key x) l a
  = a + fold_right (fun x s => key x + s) 0 l.
Proof.
  revert a. induction l as [|x l IH]; intros a; simpl.
  - lia.
  - rewrite IH. lia.
Qed.

Lemma sum_by_fold_right (l : list A) :
  sum_by key l = fold_right (fun x s => key x + s) 0 l.
Proof.
  unfold sum_by. rewrite sum_by_from. lia.
Qed.

Lemma sum_by_perm (l l' : list A) :
  Permutation l l' -> sum_by key l = sum_by key l'.
Proof.
  rewrite !sum_by_fold_right.
  induction 1; simpl; lia.
Qed.

Lemma sum_by_bounds (l : list A) (x : A) :
  Forall (fun t => 0 <= key t) l -> In x l -> 0 <= key x <= sum_by key l.
Proof.
  rewrite sum_by_fold_right.
  induction 1 as [|y l Hy Hl IH]; simpl; [tauto|].
  assert (0 <= fold_right (fun x s => key x + s) 0 l).
  { clear IH. induction Hl; simpl; lia. }
  intros [->|Hin]; [lia|].
  specialize (IH Hin). lia.
Qed.

End Ranking.

Lemma sum_by_votes_cast (l : list OptionTally) :
  sum_by get_vote_count (sorted_reverse get_vote_count l) = votes_cast l.
Proof.
  rewrite (sum_by_perm _ _ _ (sorted_reverse_perm get_vote_count l)).
  now rewrite sum_by_fold_right.
Qed.

(** ** The division and the blocks *)

(** [round_half_even] picks an integer nearest to the quotient. *)
Lemma round_half_even_nearest (num den : Z) :
  0 < den ->
  Z.abs (2 * (num - PyFloat.round_half_even num den * den)) <= den.
Proof.
  intros Hden. unfold PyFloat.round_half_even.
  pose proof (Z.div_mod num den ltac:(lia)) as Hdm.
  pose proof (Z.mod_pos_bound num den Hden) as Hr.
  cbv zeta.
  destruct (Z.compare_spec (2 * (num mod den)) den) as [Heq|Hlt|Hgt];
    [destruct (Z.even (num / den))| |]; nia.
Qed.

Lemma floor_log2_ratio_le (n d : Z) :
  0 < n <= d -> PyFloat.floor_log2_ratio n d <= 0.
Proof.
  intros Hnd. unfold PyFloat.floor_log2_ratio.
  assert (Z.log2 n <= Z.log2 d) by (apply Z.log2_le_mono; lia).
  cbv zeta.
  destruct (if 0 <=? Z.log2 n - Z.log2 d
            then d * 2 ^ (Z.log2 n - Z.log2 d) <=? n
            else d <=? n * 2 ^ (- (Z.log2 n - Z.log2 d))); lia.
Qed.

(** A quotient in [[0, 1]] never overflows. *)
Lemma round_to_double_fraction (neg : bool) (n d : Z) :
  0 <= n <= d -> 0 < d ->
  exists m e, PyFloat.round_to_double neg n d = Some (PyFloat.Finite neg m e).
Proof.
  intros Hnd Hd. unfold PyFloat.round_to_double.
  destruct (n =? 0) eqn:Hn0; [eauto|].
  apply Z.eqb_neq in Hn0.
  pose proof (floor_log2_ratio_le n d ltac:(lia)) as Hk.
  cbv zeta.
  set (e := Z.max (PyFloat.floor_log2_ratio n d - 52) (-1074)).
  assert (He : e <= -52) by (unfold e; lia).
  replace (971 <? e) with false by (symmetry; apply Z.ltb_ge; lia).
  replace (e =? 971) with false by (symmetry; apply Z.eqb_neq; lia).
  destruct (PyFloat.scaled_round n d e =? 2 ^ 53); eauto.
Qed.

Lemma int_truediv_fraction (a b : Z) :
  0 <= a <= b -> 0 < b ->
  exists m e, PyFloat.int_truediv a b = Ok (PyFloat.Finite false m e).
Proof.
  intros Hab Hb. unfold PyFloat.int_truediv.
  replace (b =? 0) with false by (symmetry; apply Z.eqb_neq; lia).
  replace (a <? 0) with false by (symmetry; apply Z.ltb_ge; lia).
  replace (b <? 0) with false by (symmetry; apply Z.ltb_ge; lia).
  rewrite (Z.abs_eq a), (Z.abs_eq b) by lia.
  cbv zeta. simpl xorb.
  destruct (round_to_double_fraction false a b Hab Hb) as (m & e & ->).
  simpl. eauto.
Qed.

Lemma int_truediv_positive_divisor (a b : Z) (msg : string) :
  0 < b -> PyFloat.int_truediv a b <> Raise (ZeroDivisionError msg).
Proof.
  intros Hb. unfold PyFloat.int_truediv.
  replace (b =? 0) with false by (symmetry; apply Z.eqb_neq; lia).
  destruct (PyFloat.round_to_double _ _ _); discriminate.
Qed.

Lemma percentage_no_zero_division (vote_count total_votes : Z) (msg : string) :
  percentage vote_count total_votes <> Raise (ZeroDivisionError msg).
Proof.
  unfold percentage.
  destruct (0 <? total_votes) eqn:Ht; [|discriminate].
  apply Z.ltb_lt in Ht.
  pose proof (int_truediv_positive_divisor vote_count total_votes msg Ht) as Hd.
  destruct (PyFloat.int_truediv vote_count total_votes) as [q|e]; simpl.
  - discriminate.
  - intros Heq. apply Hd. congruence.
Qed.

Lemma format_number_1f_no_zero_division (p : number) (msg : string) :
  format_number_1f p <> Raise (ZeroDivisionError msg).
Proof.
  destruct p as [z|x]; simpl; [|discriminate].
  destruct (PyFloat.round_to_double _ _ _); discriminate.
Qed.

Lemma option_block_no_zero_division (total_votes : Z) (entry : Z * OptionTally)
    (msg : string) :
  option_block total_votes entry <> Raise (ZeroDivisionError msg).
Proof.
  destruct entry as [i t]. unfold option_block.
  pose proof (percentage_no_zero_division (get_vote_count t) total_votes msg) as Hp.
  destruct (percentage (get_vote_count t) total_votes) as [p|e]; simpl.
  - pose proof (format_number_1f_no_zero_division p msg) as Hf.
    destruct (format_number_1f p); simpl; [discriminate|].
    intros Heq. apply Hf. congruence.
  - intros Heq. apply Hp. congruence.
Qed.

Lemma rmap_never {A B : Type} (f : A -> result B) (bad : exn) (l : list A) :
  (forall a, f a <> Raise bad) -> rmap f l <> Raise bad.
Proof.
  intros Hf. induction l as [|a l IH]; simpl; [discriminate|].
  specialize (Hf a).
  destruct (f a); simpl; [|intros Heq; apply Hf; congruence].
  destruct (rmap f l); simpl; [discriminate | intros Heq; apply IH; congruence].
Qed.

Lemma rmap_total {A B : Type} (f : A -> result B) (l : list A) :
  Forall (fun a => exists b, f a = Ok b) l ->
  exists bs, rmap f l = Ok bs /\ Forall2 (fun a b => f a = Ok b) l bs.
Proof.
  induction 1 as [|a l [b Hb] _ (bs & Hbs & Hall)]; simpl.
  - exists []. split; [reflexivity | constructor].
  - rewrite Hb, Hbs. simpl. exists (b :: bs).
    split; [reflexivity | now constructor].
Qed.

Lemma enumerate_In {A : Type} (l : list A) (start i : Z) (x : A) :
  In (i, x) (enumerate start l) -> In x l.
Proof.
  revert start. induction l as [|y l IH]; simpl; intros start; [tauto|].
  intros [Heq|Hin]; [left; congruence | right; eauto].
Qed.

(** With counts in [[0, total_votes]] every block is rendered. *)
Lemma option_block_total (total_votes : Z) (entry : Z * OptionTally) :
  0 <= get_vote_count (snd entry) <= total_votes ->
  exists b, option_block total_votes entry = Ok b.
Proof.
  destruct entry as [i t]. simpl. intros Hv.
  unfold option_block, percentage.
  destruct (0 <? total_votes) eqn:Ht.
  - apply Z.ltb_lt in Ht.
    destruct (int_truediv_fraction (get_vote_count t) total_votes Hv Ht)
      as (m & e & ->).
    simpl. eauto.
  - simpl. eauto.
Qed.

Lemma blocks_total (results : list OptionTally) (total_votes : Z) :
  Forall (fun t => 0 <= get_vote_count t <= total_votes) results ->
  exists blocks,
    rmap (option_block total_votes) (enumerate 1 results) = Ok blocks /\
    Forall2 (fun entry b => option_block total_votes entry = Ok b)
      (enumerate 1 results) blocks.
Proof.
  intros Hall. apply rmap_total.
  apply Forall_forall. intros [i t] Hin.
  apply option_block_total. simpl.
  apply enumerate_In in Hin.
  rewrite Forall_forall in Hall. now apply Hall.
Qed.

Lemma ranked_within_total (results : list OptionTally) :
  nonneg_counts results ->
  Forall (fun t => 0 <= get_vote_count t <= votes_cast results)
    (sorted_reverse get_vote_count results).
Proof.
  intros Hnn. apply Forall_forall. intros t Hin.
  rewrite <- sum_by_votes_cast.
  apply sum_by_bounds; [|exact Hin].
  eapply Permutation_Forall;
    [apply Permutation_sym, sorted_reverse_perm | exact Hnn].
Qed.

Lemma string_app_assoc (a b c : string) : ((a ++ b) ++ c = a ++ b ++ c)%string.
Proof.
  induction a as [|ch a IH]; simpl; [reflexivity | now rewrite IH].
Qed.

Lemma contains_app_r (needle a b : string) :
  contains needle b = true -> contains needle (a ++ b) = true.
Proof.
  intros Hb. induction a as [|ch a IH]; simpl; [exact Hb|].
  rewrite IH. apply orb_true_r.
Qed.

Lemma starts_with_app (p s : string) : starts_with p (p ++ s) = true.
Proof.
  induction p as [|ch p IH]; simpl; [reflexivity|].
  now rewrite Ascii.eqb_refl, IH.
Qed.

(** The shape of the report on a non-empty [results] list. *)
Lemma format_poll_results_ranked (d : PollResultsReport) (l : list OptionTally) :
  results d = Some l -> l <> [] ->
  format_poll_results (Some d)
  = (blocks <- rmap (option_block (votes_cast l))
                 (enumerate 1 (sorted_reverse get_vote_count l)) ;;
     Ok (header d ++ total_line (votes_cast l) ++ concat_strings blocks))%result.
Proof.
  intros Hres Hne. unfold format_poll_results, dict_is_empty.
  rewrite Hres.
  destruct l as [|t l]; [congruence|].
  rewrite sum_by_votes_cast.
  assert (Hshape : forall r : result (list string),
    (blocks <- r ;;
     Ok ((header d ++ total_line (votes_cast (t :: l))) ++ concat_strings blocks))%result
    = (blocks <- r ;;
       Ok (header d ++ total_line (votes_cast (t :: l)) ++ concat_strings blocks))%result).
  { intros [blocks|e]; simpl; [now rewrite string_app_assoc | reflexivity]. }
  destruct (poll_id d), (question d); apply Hshape.
Qed.

(** ** The report: totals, ranking, empty input, percentages *)

Ltac nonneg_counts_tac :=
  unfold nonneg_counts;
  repeat (apply Forall_cons; [unfold get_vote_count; simpl; lia|]);
  apply Forall_nil.

(** C1: for a report with a non-empty results list, every text that
    format_poll_results returns is the header, then the line "Total votes: N"
    where N is the sum of the vote_count fields of all entries, a missing
    vote_count counting as zero, then the blocks; and when the vote counts are
    non-negative, as the data model has them, it does return such a text. *)
Theorem C1_total_votes_is_sum (d : PollResultsReport) (l : list OptionTally) :
  results d = Some l -> l <> [] ->
  (forall out, format_poll_results (Some d) = Ok out ->
     exists rest,
       out = header d ++ "Total votes: " ++ str_of_int (votes_cast l)
             ++ newline ++ newline ++ rest) /\
  (nonneg_counts l ->
   exists rest,
     format_poll_results (Some d)
     = Ok (header d ++ "Total votes: " ++ str_of_int (votes_cast l)
           ++ newline ++ newline ++ rest)).
Proof.
  intros Hres Hne.
  rewrite (format_poll_results_ranked d l Hres Hne).
  split.
  - intros out Hout.
    destruct (rmap _ _) as [blocks|e]; cbn [rbind] in Hout; [|discriminate].
    exists (concat_strings blocks).
    unfold total_line in Hout. rewrite !string_app_assoc in Hout.
    congruence.
  - intros Hnn.
    destruct (blocks_total _ _ (ranked_within_total l Hnn)) as (blocks & -> & _).
    exists (concat_strings blocks). cbn [rbind].
    unfold total_line. now rewrite !string_app_assoc.
Qed.

Lemma C1_total_votes_is_sum_witness :
  results (report_of [tally_B; tally_A]) = Some [tally_B; tally_A] /\
  nonneg_counts [tally_B; tally_A] /\
  exists rest,
    format_poll_results (Some (report_of [tally_B; tally_A]))
    = Ok (header (report_of [tally_B; tally_A]) ++ "Total votes: "
          ++ str_of_int (votes_cast [tally_B; tally_A])
          ++ newline ++ newline ++ rest).
Proof.
  assert (Hnn : nonneg_counts [tally_B; tally_A]).
  { nonneg_counts_tac. }
  split; [reflexivity|]. split; [exact Hnn|].
  apply (proj2 (C1_total_votes_is_sum (report_of [tally_B; tally_A])
                  [tally_B; tally_A] eq_refl ltac:(discriminate))).
  exact Hnn.
Defined.

(** C2: on a non-empty results list the blocks of the report are those of a
    ranked list, in its order and numbered from 1: the ranked list is a
    permutation of the input, descending by vote_count, and keeps entries of
    equal vote_count in their input order; with counts [5, 5, 2] in input
    order the ranked list is the input list itself. *)
Theorem C2_ranked_descending_stable (d : PollResultsReport) (l : list OptionTally) :
  results d = Some l -> l <> [] -> nonneg_counts l ->
  exists ranked blocks,
    Permutation ranked l /\
    descending get_vote_count ranked /\
    stable_wrt get_vote_count l ranked /\
    Forall2 (fun entry b => option_block (votes_cast l) entry = Ok b)
      (enumerate 1 ranked) blocks /\
    format_poll_results (Some d)
    = Ok (header d ++ total_line (votes_cast l) ++ concat_strings blocks) /\
    (map get_vote_count l = [5; 5; 2] -> ranked = l).
Proof.
  intros Hres Hne Hnn.
  destruct (blocks_total _ _ (ranked_within_total l Hnn)) as (blocks & Hb & Hall).
  exists (sorted_reverse get_vote_count l), blocks.
  split; [apply sorted_reverse_perm|].
  split; [apply sorted_reverse_descending|].
  split; [apply sorted_reverse_stable|].
  split; [exact Hall|].
  split.
  - rewrite (format_poll_results_ranked d l Hres Hne), Hb. reflexivity.
  - intros Hcounts.
    destruct l as [|a [|b [|c [|? ?]]]]; try discriminate.
    injection Hcounts as Ha Hb' Hc.
    unfold sorted_reverse. simpl. rewrite Hb', Hc. simpl. rewrite Ha, Hb'.
    reflexivity.
Qed.

Lemma C2_ranked_descending_stable_witness :
  nonneg_counts [tally_red; tally_green; tally_blue] /\
  exists ranked blocks,
    Permutation ranked [tally_red; tally_green; tally_blue] /\
    descending get_vote_count ranked /\
    stable_wrt get_vote_count [tally_red; tally_green; tally_blue] ranked /\
    Forall2 (fun entry b =>
               option_block (votes_cast [tally_red; tally_green; tally_blue]) entry
               = Ok b)
      (enumerate 1 ranked) blocks /\
    format_poll_results (Some (report_of [tally_red; tally_green; tally_blue]))
    = Ok (header (report_of [tally_red; tally_green; tally_blue])
          ++ total_line (votes_cast [tally_red; tally_green; tally_blue])
          ++ concat_strings blocks) /\
    (map get_vote_count [tally_red; tally_green; tally_blue] = [5; 5; 2] ->
     ranked = [tally_red; tally_green; tally_blue]).
Proof.
  assert (Hnn : nonneg_counts [tally_red; tally_green; tally_blue]).
  { nonneg_counts_tac. }
  split; [exact Hnn|].
  apply (C2_ranked_descending_stable
           (report_of [tally_red; tally_green; tally_blue])
           [tally_red; tally_green; tally_blue]).
  - reflexivity.
  - discriminate.
  - exact Hnn.
Defined.

(** C3, as stated, fails: for an absent report ([None], or the empty dict)
    the message is "No results data available", with no poll identifier, no
    question and no total; and for a report with an empty results list the
    text ends in "No votes cast yet." and has no "Total votes" line. *)
Lemma C3_absent_report_counterexample :
  format_poll_results None = Ok "No results data available" /\
  format_poll_results (Some empty_report) = Ok "No results data available" /\
  contains "Poll #" "No results data available" = false /\
  contains "Total votes" "No results data available" = false /\
  format_poll_results (Some (report_of []))
  = Ok ("Poll #7: Colour?" ++ newline ++ "================" ++ newline ++ newline
        ++ "No votes cast yet." ++ newline) /\
  contains "Total votes"
    ("Poll #7: Colour?" ++ newline ++ "================" ++ newline ++ newline
     ++ "No votes cast yet." ++ newline) = false.
Proof.
  repeat split; vm_compute; reflexivity.
Qed.

(** C3, amended: an absent report ([None] or the empty dict) gives, without
    error, the message "No results data available"; a report that holds some
    key and whose results list is absent or empty gives, without error, the
    header (the line "Poll #<id>: <question>", its underline, a blank line)
    followed by "No votes cast yet." and nothing else. *)
Theorem C3_no_results_messages (d : PollResultsReport) :
  format_poll_results None = Ok "No results data available" /\
  (dict_is_empty d = true ->
   format_poll_results (Some d) = Ok "No results data available") /\
  (dict_is_empty d = false -> results d = None \/ results d = Some [] ->
   format_poll_results (Some d) = Ok (header d ++ "No votes cast yet." ++ newline) /\
   starts_with (header_line d) (header d ++ "No votes cast yet." ++ newline) = true).
Proof.
  split; [reflexivity|]. split.
  - intros He. unfold format_poll_results. now rewrite He.
  - intros He Hres. split.
    + unfold format_poll_results. rewrite He.
      destruct Hres as [-> | ->]; reflexivity.
    + unfold header. rewrite string_app_assoc. apply starts_with_app.
Qed.

Lemma C3_no_results_messages_witness :
  (dict_is_empty empty_report = true /\
   format_poll_results (Some empty_report) = Ok "No results data available") /\
  (dict_is_empty (report_of []) = false /\
   format_poll_results (Some (report_of []))
   = Ok (header (report_of []) ++ "No votes cast yet." ++ newline) /\
   starts_with (header_line (report_of []))
     (header (report_of []) ++ "No votes cast yet." ++ newline) = true).
Proof.
  split.
  - split; [reflexivity|].
    apply (proj1 (proj2 (C3_no_results_messages empty_report))). reflexivity.
  - split; [reflexivity|].
    apply (proj2 (proj2 (C3_no_results_messages (report_of [])))).
    + reflexivity.
    + right. reflexivity.
Defined.

(** C5: for results = [{option_id: 1, text: "A", vote_count: 3},
    {option_id: 2, text: "B", vote_count: 1}], whatever the poll id and the
    question, the text reports a total of 4 votes and shows option A first
    with 75.0% and option B second with 25.0%. *)
Theorem C5_three_to_one (pid : option Z) (q : option string) :
  let d := {| poll_id := pid; question := q; results := Some [tally_A; tally_B] |} in
  format_poll_results (Some d)
  = Ok (header d ++
        "Total votes: 4" ++ newline ++ newline ++
        "1. A" ++ newline ++
        "   Votes: 3 (75.0%)" ++ newline ++
        "   Option ID: 1" ++ newline ++ newline ++
        "2. B" ++ newline ++
        "   Votes: 1 (25.0%)" ++ newline ++
        "   Option ID: 2" ++ newline ++ newline).
Proof.
  intros d.
  rewrite (format_poll_results_ranked d [tally_A; tally_B] eq_refl
             ltac:(discriminate)).
  set (blocks := rmap _ _). vm_compute in blocks. subst blocks.
  cbn [rbind]. reflexivity.
Qed.

(** ** Validation before the request *)

Ltac run_io :=
  unfold try_except, bind, requests_get, requests_post, send, raise, ret, lift.

(** A handler that only re-raises leaves the request log as the body left
    it. *)
Lemma try_reraise_log {A : Type} (dec : bool) (msg : exn -> string)
    (c : io A) (log : list request) :
  snd (try_except c (reraise_request_exception dec msg) log) = snd (c log).
Proof.
  unfold try_except, reraise_request_exception.
  destruct (c log) as [[a|e] log']; [reflexivity|].
  destruct (is_request_exception dec e); reflexivity.
Qed.

(** C6, as stated, fails: login_and_get_token with an empty username and an
    empty password sends its request; the failure it then reports is the
    server's answer (here 400), not a local rejection. *)
Lemma C6_login_sends_request_counterexample :
  login_and_get_token (always (mk_response 400 "Bad Request" no_body))
    message_of true "" "" local_url []
  = (Raise (ValueError [PStr "Incorrect username or password"]),
     [login_request local_url "" ""]).
Proof. reflexivity. Qed.

(** C6, amended: fetch_polls rejects skip < 0 and limit <= 0,
    get_poll_results (in both forms) and vote_on_poll reject poll_id <= 0,
    vote_on_poll rejects option_id <= 0 and an empty access_token, and
    register_user rejects an empty username or password, each before any
    request is sent (the request log is unchanged); login_and_get_token
    validates nothing and sends its request for every username and
    password. *)
Theorem C6_validation_before_request (server : request -> outcome)
    (str_exn : exn -> string) (dec : bool) (base_url : string) (log : list request) :
  (forall skip limit,
     (skip < 0 ->
      fetch_polls server dec skip limit base_url log
      = (Raise (ValueError [PInt 400; PStr "Skip parameter must be non-negative"]), log)) /\
     (0 <= skip -> limit <= 0 ->
      fetch_polls server dec skip limit base_url log
      = (Raise (ValueError [PInt 400; PStr "Limit parameter must be positive"]), log))) /\
  (forall poll_id, poll_id <= 0 ->
     get_poll_results server str_exn dec poll_id base_url log
     = (Raise (ValueError [PStr "Poll ID must be a positive integer"]), log) /\
     get_poll_results_with_error_handling server str_exn dec poll_id base_url log
     = (Ok (false, PNone, PStr "Poll ID must be a positive integer"), log)) /\
  (forall poll_id option_id access_token,
     (poll_id <= 0 ->
      vote_on_poll server str_exn dec poll_id option_id access_token base_url log
      = (Raise (ValueError [PStr "Poll ID must be a positive integer"]), log)) /\
     (0 < poll_id -> option_id <= 0 ->
      vote_on_poll server str_exn dec poll_id option_id access_token base_url log
      = (Raise (ValueError [PStr "Option ID must be a positive integer"]), log)) /\
     (0 < poll_id -> 0 < option_id -> access_token = "" ->
      vote_on_poll server str_exn dec poll_id option_id access_token base_url log
      = (Raise (ValueError [PStr "Access token is required for voting"]), log))) /\
  (forall username password, username = "" \/ password = "" ->
     register_user server username password base_url log
     = (Raise (ValueError [PInt 400; PStr "Username and password are required"]), log)) /\
  (forall username password,
     snd (login_and_get_token server str_exn dec username password base_url log)
     = (log ++ [login_request base_url username password])%list).
Proof.
  split; [|split; [|split; [|split]]].
  - intros skip limit. split.
    + intros Hs. unfold fetch_polls.
      replace (skip <? 0) with true by (symmetry; apply Z.ltb_lt; lia).
      reflexivity.
    + intros Hs Hl. unfold fetch_polls.
      replace (skip <? 0) with false by (symmetry; apply Z.ltb_ge; lia).
      replace (limit <=? 0) with true by (symmetry; apply Z.leb_le; lia).
      reflexivity.
  - intros poll_id Hp.
    unfold get_poll_results, get_poll_results_with_error_handling.
    replace (poll_id <=? 0) with true by (symmetry; apply Z.leb_le; lia).
    rewrite orb_true_r. split; reflexivity.
  - intros poll_id option_id access_token. unfold vote_on_poll.
    split; [|split].
    + intros Hp.
      replace (poll_id <=? 0) with true by (symmetry; apply Z.leb_le; lia).
      rewrite orb_true_r. reflexivity.
    + intros Hp Ho.
      replace (poll_id =? 0) with false by (symmetry; apply Z.eqb_neq; lia).
      replace (poll_id <=? 0) with false by (symmetry; apply Z.leb_gt; lia).
      replace (option_id <=? 0) with true by (symmetry; apply Z.leb_le; lia).
      rewrite orb_true_r. reflexivity.
    + intros Hp Ho ->.
      replace (poll_id =? 0) with false by (symmetry; apply Z.eqb_neq; lia).
      replace (poll_id <=? 0) with false by (symmetry; apply Z.leb_gt; lia).
      replace (option_id =? 0) with false by (symmetry; apply Z.eqb_neq; lia).
      replace (option_id <=? 0) with false by (symmetry; apply Z.leb_gt; lia).
      reflexivity.
  - intros username password Hempty. unfold register_user.
    replace (String.eqb username "" || String.eqb password "") with true.
    + reflexivity.
    + symmetry. apply orb_true_iff.
      destruct Hempty as [-> | ->]; [left | right]; reflexivity.
  - intros username password. unfold login_and_get_token, login_request.
    rewrite try_reraise_log. run_io.
    destruct (server _) as [r|e]; [|reflexivity].
    destruct (status_code r =? 200).
    + destruct (resp_json r) as [v|e]; [|reflexivity].
      destruct (getitem v "access_token"); reflexivity.
    + destruct (status_code r =? 400); [reflexivity|].
      destruct (raise_for_status r) as [[]|e]; reflexivity.
Qed.

Lemma C6_validation_before_request_witness :
  fetch_polls (always (mk_response 200 "OK" (Ok (PList [])))) true (-1) 10 local_url []
  = (Raise (ValueError [PInt 400; PStr "Skip parameter must be non-negative"]), []) /\
  fetch_polls (always (mk_response 200 "OK" (Ok (PList [])))) true 0 0 local_url []
  = (Raise (ValueError [PInt 400; PStr "Limit parameter must be positive"]), []) /\
  get_poll_results (always (mk_response 200 "OK" (Ok (PList [])))) message_of true
    0 local_url []
  = (Raise (ValueError [PStr "Poll ID must be a positive integer"]), []) /\
  vote_on_poll (always (mk_response 200 "OK" (Ok (PList [])))) message_of true
    0 1 "token" local_url []
  = (Raise (ValueError [PStr "Poll ID must be a positive integer"]), []) /\
  vote_on_poll (always (mk_response 200 "OK" (Ok (PList [])))) message_of true
    1 (-3) "token" local_url []
  = (Raise (ValueError [PStr "Option ID must be a positive integer"]), []) /\
  vote_on_poll (always (mk_response 200 "OK" (Ok (PList [])))) message_of true
    1 1 "" local_url []
  = (Raise (ValueError [PStr "Access token is required for voting"]), []) /\
  register_user (always (mk_response 200 "OK" (Ok (PList [])))) "" "secret" local_url []
  = (Raise (ValueError [PInt 400; PStr "Username and password are required"]), []).
Proof.
  destruct (C6_validation_before_request
              (always (mk_response 200 "OK" (Ok (PList [])))) message_of true
              local_url []) as (Hfetch & Hget & Hvote & Hreg & _).
  split; [apply (proj1 (Hfetch (-1) 10)); lia|].
  split; [apply (proj2 (Hfetch 0 0)); lia|].
  split; [apply (proj1 (Hget 0 ltac:(lia)))|].
  split; [apply (proj1 (Hvote 0 1 "token")); lia|].
  split; [apply (proj1 (proj2 (Hvote 1 (-3) "token"))); lia|].
  split; [apply (proj2 (proj2 (Hvote 1 1 ""))); [lia | lia | reflexivity]|].
  apply (Hreg "" "secret"). left. reflexivity.
Defined.

(** ** Status dispatch of the results operations *)

Ltac positive_id Hp :=
  match type of Hp with
  | 0 < ?p =>
      replace (p =? 0) with false by (symmetry; apply Z.eqb_neq; lia);
      replace (p <=? 0) with false by (symmetry; apply Z.leb_gt; lia);
      cbn [orb]
  end.

(** C7: when the results endpoint answers 404 for a positive poll id,
    get_poll_results raises ValueError("Poll not found"), which is not a
    RequestException, and get_poll_results_with_error_handling returns
    (False, None, "Poll not found"); get_poll_results_summary raises the same
    ValueError whatever the formatter is, so that the formatter is not
    consulted; and a transport failure never gives the "Poll not found"
    message: the triple form reports another message, and get_poll_results
    raises a RequestException. *)
Theorem C7_not_found (server : request -> outcome) (str_exn : exn -> string)
    (dec : bool) (poll_id : Z) (base_url : string) (log : list request)
    (resp : response) :
  0 < poll_id ->
  server (mk_get (results_url base_url poll_id) []) = Responds resp ->
  status_code resp = 404 ->
  get_poll_results server str_exn dec poll_id base_url log
  = (Raise (ValueError [PStr "Poll not found"]),
     (log ++ [mk_get (results_url base_url poll_id) []])%list) /\
  is_request_exception dec (ValueError [PStr "Poll not found"]) = false /\
  get_poll_results_with_error_handling server str_exn dec poll_id base_url log
  = (Ok (false, PNone, PStr "Poll not found"),
     (log ++ [mk_get (results_url base_url poll_id) []])%list) /\
  (forall formatter : pyobj -> result string,
     get_poll_results_summary server str_exn dec formatter poll_id base_url log
     = (Raise (ValueError [PStr "Poll not found"]),
        (log ++ [mk_get (results_url base_url poll_id) []])%list)) /\
  (forall (network : request -> outcome) (e : exn),
     network (mk_get (results_url base_url poll_id) []) = Fails e ->
     (exists m,
        get_poll_results_with_error_handling network str_exn dec poll_id base_url log
        = (Ok (false, PNone, PStr m),
           (log ++ [mk_get (results_url base_url poll_id) []])%list) /\
        m <> "Poll not found") /\
     (is_request_exception dec e = true ->
      get_poll_results network str_exn dec poll_id base_url log
      = (Raise (RequestException ("Failed to get poll results: " ++ str_exn e)),
         (log ++ [mk_get (results_url base_url poll_id) []])%list))).
Proof.
  intros Hp Hserver Hstatus.
  assert (Hget : get_poll_results server str_exn dec poll_id base_url log
                 = (Raise (ValueError [PStr "Poll not found"]),
                    (log ++ [mk_get (results_url base_url poll_id) []])%list)).
  { unfold get_poll_results. positive_id Hp. run_io.
    fold (results_url base_url poll_id). rewrite Hserver, Hstatus. reflexivity. }
  split; [exact Hget|]. split; [reflexivity|]. split; [|split].
  - unfold get_poll_results_with_error_handling. positive_id Hp. run_io.
    fold (results_url base_url poll_id). rewrite Hserver, Hstatus. reflexivity.
  - intros formatter. unfold get_poll_results_summary, bind.
    rewrite Hget. reflexivity.
  - intros network e Hfail. split.
    + unfold get_poll_results_with_error_handling. positive_id Hp. run_io.
      fold (results_url base_url poll_id). rewrite Hfail.
      destruct (is_connection_error e); [eexists; split; [reflexivity|discriminate]|].
      destruct (is_timeout e); [eexists; split; [reflexivity|discriminate]|].
      destruct (is_request_exception dec e);
        [eexists; split; [reflexivity|discriminate]|].
      destruct (is_json_decode_error e);
        eexists; (split; [reflexivity|discriminate]).
    + intros Hre. unfold get_poll_results. positive_id Hp. run_io.
      fold (results_url base_url poll_id). rewrite Hfail.
      unfold reraise_request_exception. rewrite Hre. reflexivity.
Qed.

Lemma C7_not_found_witness :
  get_poll_results (always (mk_response 404 "Not Found" no_body)) message_of true
    999 local_url []
  = (Raise (ValueError [PStr "Poll not found"]),
     [mk_get (results_url local_url 999) []]) /\
  get_poll_results_with_error_handling (always (mk_response 404 "Not Found" no_body))
    message_of true 999 local_url []
  = (Ok (false, PNone, PStr "Poll not found"),
     [mk_get (results_url local_url 999) []]).
Proof.
  destruct (C7_not_found (always (mk_response 404 "Not Found" no_body))
              message_of true 999 local_url [] (mk_response 404 "Not Found" no_body)
              ltac:(lia) eq_refl eq_refl) as (Hget & _ & Htriple & _).
  split; [exact Hget | exact Htriple].
Defined.

(** What fetch_polls does with each status, once its arguments are valid. *)
Lemma fetch_polls_error_status (server : request -> outcome) (dec : bool)
    (skip limit : Z) (base_url : string) (log : list request) (resp : response) :
  0 <= skip -> 0 < limit ->
  server (mk_get (base_url ++ "/polls") [("skip", PInt skip); ("limit", PInt limit)])
  = Responds resp ->
  400 <= status_code resp < 600 ->
  fst (fetch_polls server dec skip limit base_url log)
  = Raise (RequestException "Failed to fetch polls").
Proof.
  intros Hs Hl Hserver Hcode. unfold fetch_polls.
  replace (skip <? 0) with false by (symmetry; apply Z.ltb_ge; lia).
  replace (limit <=? 0) with false by (symmetry; apply Z.leb_gt; lia).
  run_io. rewrite Hserver.
  replace (status_code resp =? 200) with false by (symmetry; apply Z.eqb_neq; lia).
  unfold raise_for_status.
  replace (400 <=? status_code resp) with true by (symmetry; apply Z.leb_le; lia).
  destruct (status_code resp <? 500) eqn:H500; cbn [andb].
  - reflexivity.
  - apply Z.ltb_ge in H500.
    replace (500 <=? status_code resp) with true by (symmetry; apply Z.leb_le; lia).
    replace (status_code resp <? 600) with true by (symmetry; apply Z.ltb_lt; lia).
    reflexivity.
Qed.

Lemma fetch_polls_other_status (server : request -> outcome) (dec : bool)
    (skip limit : Z) (base_url : string) (log : list request) (resp : response) :
  0 <= skip -> 0 < limit ->
  server (mk_get (base_url ++ "/polls") [("skip", PInt skip); ("limit", PInt limit)])
  = Responds resp ->
  status_code resp <> 200 ->
  status_code resp < 400 \/ 600 <= status_code resp ->
  fst (fetch_polls server dec skip limit base_url log) = Ok PNone.
Proof.
  intros Hs Hl Hserver H200 Hcode. unfold fetch_polls.
  replace (skip <? 0) with false by (symmetry; apply Z.ltb_ge; lia).
  replace (limit <=? 0) with false by (symmetry; apply Z.leb_gt; lia).
  run_io. rewrite Hserver.
  replace (status_code resp =? 200) with false by (symmetry; apply Z.eqb_neq; lia).
  unfold raise_for_status.
  destruct Hcode as [Hlow | Hhigh].
  - replace (400 <=? status_code resp) with false by (symmetry; apply Z.leb_gt; lia).
    replace (500 <=? status_code resp) with false by (symmetry; apply Z.leb_gt; lia).
    reflexivity.
  - replace (status_code resp <? 500) with false by (symmetry; apply Z.ltb_ge; lia).
    replace (status_code resp <? 600) with false by (symmetry; apply Z.ltb_ge; lia).
    rewrite !andb_false_r. reflexivity.
Qed.

(** C8: fetch_polls does not fail on every status other than 200. When
    GET /polls is answered with 204 (a status that raise_for_status does not
    raise for), fetch_polls returns None to its caller. *)
Theorem C8_fetch_polls_returns_on_204 :
  fetch_polls (always (mk_response 204 "No Content" no_body)) true 0 10 local_url []
  = (Ok PNone,
     [mk_get (local_url ++ "/polls") [("skip", PInt 0); ("limit", PInt 10)]]).
Proof. reflexivity. Qed.

(** C9: for a positive poll id and a response whose status is neither 200
    nor 404, get_poll_results_with_error_handling returns
    (False, None, message): the message is the value under "detail" when the
    body parses as a JSON object that has that key, and
    "HTTP <status>: <reason>" in every other case. *)
Theorem C9_other_status_message (server : request -> outcome)
    (str_exn : exn -> string) (dec : bool) (poll_id : Z) (base_url : string)
    (log : list request) (resp : response) :
  0 < poll_id ->
  server (mk_get (results_url base_url poll_id) []) = Responds resp ->
  status_code resp <> 200 -> status_code resp <> 404 ->
  (forall items detail,
     resp_json resp = Ok (PDict items) -> dict_get "detail" items = Some detail ->
     get_poll_results_with_error_handling server str_exn dec poll_id base_url log
     = (Ok (false, PNone, detail),
        (log ++ [mk_get (results_url base_url poll_id) []])%list)) /\
  ((forall items, resp_json resp = Ok (PDict items) -> dict_get "detail" items = None) ->
   get_poll_results_with_error_handling server str_exn dec poll_id base_url log
   = (Ok (false, PNone,
          PStr ("HTTP " ++ str_of_int (status_code resp) ++ ": " ++ reason resp)),
      (log ++ [mk_get (results_url base_url poll_id) []])%list)).
Proof.
  intros Hp Hserver H200 H404.
  assert (Hrun :
    get_poll_results_with_error_handling server str_exn dec poll_id base_url log
    = (Ok (false, PNone,
           match resp_json resp with
           | Ok (PDict error_detail) =>
               match dict_get "detail" error_detail with
               | Some detail => detail
               | None =>
                   PStr ("HTTP " ++ str_of_int (status_code resp) ++ ": " ++ reason resp)
               end
           | _ => PStr ("HTTP " ++ str_of_int (status_code resp) ++ ": " ++ reason resp)
           end),
       (log ++ [mk_get (results_url base_url poll_id) []])%list)).
  { unfold get_poll_results_with_error_handling. positive_id Hp. run_io.
    fold (results_url base_url poll_id). rewrite Hserver.
    replace (status_code resp =? 200) with false by (symmetry; apply Z.eqb_neq; lia).
    replace (status_code resp =? 404) with false by (symmetry; apply Z.eqb_neq; lia).
    reflexivity. }
  rewrite Hrun. split.
  - intros items detail Hbody Hdetail. now rewrite Hbody, Hdetail.
  - intros Hnone.
    destruct (resp_json resp) as [[| | | |?|items]|?]; try reflexivity.
    now rewrite (Hnone items eq_refl).
Qed.

Lemma C9_other_status_message_witness :
  get_poll_results_with_error_handling
    (always (mk_response 422 "Unprocessable Entity"
               (Ok (PDict [("detail", PStr "poll is closed")]))))
    message_of true 3 local_url []
  = (Ok (false, PNone, PStr "poll is closed"),
     [mk_get (results_url local_url 3) []]) /\
  get_poll_results_with_error_handling
    (always (mk_response 503 "Service Unavailable" no_body))
    message_of true 3 local_url []
  = (Ok (false, PNone, PStr "HTTP 503: Service Unavailable"),
     [mk_get (results_url local_url 3) []]).
Proof.
  split.
  - apply (proj1 (C9_other_status_message
                    (always (mk_response 422 "Unprocessable Entity"
                               (Ok (PDict [("detail", PStr "poll is closed")]))))
                    message_of true 3 local_url []
                    (mk_response 422 "Unprocessable Entity"
                       (Ok (PDict [("detail", PStr "poll is closed")])))
                    ltac:(lia) eq_refl ltac:(discriminate) ltac:(discriminate))
             [("detail", PStr "poll is closed")] (PStr "poll is closed")
             eq_refl eq_refl).
  - apply (proj2 (C9_other_status_message
                    (always (mk_response 503 "Service Unavailable" no_body))
                    message_of true 3 local_url []
                    (mk_response 503 "Service Unavailable" no_body)
                    ltac:(lia) eq_refl ltac:(discriminate) ltac:(discriminate))).
    intros items Hbody. discriminate Hbody.
Defined.

(** What does hold of the triple: the call always returns one, a success
    carries no error message, and a failure carries no results. *)
Lemma get_poll_results_with_error_handling_returns (server : request -> outcome)
    (str_exn : exn -> string) (dec : bool) (poll_id : Z) (base_url : string)
    (log : list request) :
  exists success results_data error_message,
    fst (get_poll_results_with_error_handling server str_exn dec poll_id base_url log)
    = Ok (success, results_data, error_message) /\
    (success = true -> error_message = PNone) /\
    (success = false -> results_data = PNone).
Proof.
  unfold get_poll_results_with_error_handling.
  destruct ((poll_id =? 0) || (poll_id <=? 0)).
  { do 3 eexists. split; [reflexivity|]. split; [discriminate | reflexivity]. }
  run_io.
  assert (Hhandler : forall (e : exn) (log' : list request),
    exists success results_data error_message,
      fst (match
             (if is_connection_error e
              then Some (fun l : list request =>
                (Ok (false, PNone,
                     PStr "Connection error: Could not connect to the server"), l))
              else if is_timeout e
              then Some (fun l : list request =>
                (Ok (false, PNone,
                     PStr "Request timeout: Server took too long to respond"), l))
              else if is_request_exception dec e
              then Some (fun l : list request =>
                (Ok (false, PNone, PStr ("Request error: " ++ str_exn e)), l))
              else if is_json_decode_error e
              then Some (fun l : list request =>
                (Ok (false, PNone, PStr "Invalid JSON response from server"), l))
              else Some (fun l : list request =>
                (Ok (false, PNone, PStr ("Unexpected error: " ++ str_exn e)), l)))
           with
           | Some h => h log'
           | None => (Raise e, log')
           end)
      = Ok (success, results_data, error_message) /\
      (success = true -> error_message = PNone) /\
      (success = false -> results_data = PNone)).
  { intros e log'.
    destruct (is_connection_error e), (is_timeout e),
      (is_request_exception dec e), (is_json_decode_error e);
      do 3 eexists; (split; [reflexivity|]); split;
      solve [discriminate | reflexivity]. }
  destruct (server _) as [r|e]; [|apply Hhandler].
  destruct (status_code r =? 200).
  - destruct (resp_json r) as [v|e]; [|apply Hhandler].
    do 3 eexists. split; [reflexivity|]. split; [reflexivity | discriminate].
  - destruct (status_code r =? 404);
      do 3 eexists; (split; [reflexivity|]); split;
      solve [discriminate | reflexivity].
Qed.

(** C10: the triple does not always pair success with results and failure
    with a message. A 500 response whose body is {"detail": null} gives
    (False, None, None), a failure with no error message; a 200 response whose
    body is the JSON null gives (True, None, None), a success with no
    results. *)
Theorem C10_triple_on_null_bodies :
  get_poll_results_with_error_handling
    (always (mk_response 500 "Internal Server Error" (Ok (PDict [("detail", PNone)]))))
    message_of true 1 local_url []
  = (Ok (false, PNone, PNone), [mk_get (results_url local_url 1) []]) /\
  get_poll_results_with_error_handling
    (always (mk_response 200 "OK" (Ok PNone))) message_of true 1 local_url []
  = (Ok (true, PNone, PNone), [mk_get (results_url local_url 1) []]).
Proof. split; reflexivity. Qed.

(** ** The float arithmetic on known values *)

(** [1 / 3 * 100] is shown as 33.3, and [1 / 8 * 100] as 12.5. *)
Example percentage_one_third :
  (p <- percentage 1 3 ;; format_number_1f p)%result = Ok "33.3".
Proof. reflexivity. Qed.

Example percentage_one_eighth :
  (p <- percentage 1 8 ;; format_number_1f p)%result = Ok "12.5".
Proof. reflexivity. Qed.

(** [1 / 2000 * 100] is the binary64 value just above 0.05, shown as 0.1 where
    the exact 0.05 would round to even, 0.0. *)
Example percentage_one_in_two_thousand :
  (p <- percentage 1 2000 ;; format_number_1f p)%result = Ok "0.1".
Proof. reflexivity. Qed.

(** Ties go to the even digit: 0.25 is shown as 0.2 and 0.75 as 0.8. *)
Example format_1f_ties :
  PyFloat.format_1f (PyFloat.Finite false 1 (-2)) = "0.2" /\
  PyFloat.format_1f (PyFloat.Finite false 3 (-2)) = "0.8".
Proof. split; reflexivity. Qed.

(** On every quotient [a / b] with [0 <= a < 48] and [1 <= b <= 48], and on
    operands near [2^53], the model and the primitive floats agree bit for
    bit. *)
Example model_agrees_with_primitive_floats :
  forallb (fun b => forallb (fun a => agrees_with_primitive a (b + 1)) (upto 48))
    (upto 48) = true /\
  agrees_with_primitive (2 ^ 52 + 1) 3 = true /\
  agrees_with_primitive 9007199254740991 9007199254740990 = true /\
  agrees_with_primitive 1 9007199254740991 = true.
Proof. repeat split; vm_compute; reflexivity. Qed.

(** A quotient too large for a float raises, and a float too large after the
    multiplication is an infinity. *)
Example truediv_overflow :
  PyFloat.int_truediv (2 ^ 1024) 1
  = Raise (OverflowError "integer division result too large for a float") /\
  (x <- PyFloat.int_truediv (2 ^ 1023) 1 ;;
   Ok (PyFloat.format_1f (PyFloat.mul_int x 100)))%result = Ok "inf".
Proof. split; vm_compute; reflexivity. Qed.

(** ** The layout of the report *)

Lemma string_length_app (a b : string) :
  String.length (a ++ b) = (String.length a + String.length b)%nat.
Proof.
  induction a as [|ch a IH]; simpl; [reflexivity | now rewrite IH].
Qed.

Lemma repeat_string_length (ch : ascii) (n : nat) :
  String.length (repeat_string (String ch "") n) = n.
Proof.
  induction n as [|n IH]; simpl; [reflexivity | now rewrite IH].
Qed.

(** X1: the header is the title, a newline, an underline of "=" characters
    exactly as long as the title, and a blank line. *)
Theorem header_underline_matches_title (d : PollResultsReport) :
  header d
  = title d ++ newline ++ repeat_string "=" (String.length (title d))
    ++ newline ++ newline /\
  String.length (repeat_string "=" (String.length (title d)))
  = String.length (title d).
Proof.
  split; [|apply repeat_string_length].
  unfold header.
  assert (Hline : header_line d = title d ++ newline).
  { unfold header_line, title. now rewrite !string_app_assoc. }
  rewrite Hline, string_length_app, string_app_assoc.
  replace (String.length (title d) + String.length newline - 1)%nat
    with (String.length (title d)) by (simpl; lia).
  reflexivity.
Qed.

(** ** The percentages shown *)

Lemma round_half_even_bounds (num den bound : Z) :
  0 < den -> 0 <= num <= bound * den ->
  0 <= PyFloat.round_half_even num den <= bound.
Proof.
  intros Hden Hnum. unfold PyFloat.round_half_even.
  pose proof (Z.div_mod num den ltac:(lia)) as Hdm.
  pose proof (Z.mod_pos_bound num den Hden) as Hr.
  assert (0 <= num / den) by (apply Z.div_pos; lia).
  cbv zeta.
  destruct (Z.compare_spec (2 * (num mod den)) den) as [Heq|Hlt|Hgt];
    [destruct (Z.even (num / den))| |]; nia.
Qed.

Lemma floor_log2_ratio_upper (n d : Z) :
  PyFloat.floor_log2_ratio n d <= Z.log2 n - Z.log2 d.
Proof.
  unfold PyFloat.floor_log2_ratio. cbv zeta.
  destruct (if 0 <=? Z.log2 n - Z.log2 d
            then d * 2 ^ (Z.log2 n - Z.log2 d) <=? n
            else d <=? n * 2 ^ (- (Z.log2 n - Z.log2 d))); lia.
Qed.

(** A quotient of at most [bound <= 128] rounds to a float of at most
    [bound], with a negative or zero exponent. *)
Lemma round_to_double_bounded (neg : bool) (n d bound : Z) :
  0 < d -> 1 <= bound <= 128 -> 0 <= n <= bound * d ->
  exists m e,
    PyFloat.round_to_double neg n d = Some (PyFloat.Finite neg m e) /\
    e <= 0 /\ 0 <= m <= bound * 2 ^ (- e).
Proof.
  intros Hd Hb Hn. unfold PyFloat.round_to_double.
  destruct (n =? 0) eqn:Hn0.
  { exists 0, 0. split; [reflexivity|]. simpl. lia. }
  apply Z.eqb_neq in Hn0. cbv zeta.
  pose proof (floor_log2_ratio_upper n d) as Hk.
  assert (Hlog : Z.log2 n <= 7 + Z.log2 d).
  { rewrite <- (Z.log2_mul_pow2 d 7) by lia.
    apply Z.log2_le_mono. change (2 ^ 7) with 128. nia. }
  set (e := Z.max (PyFloat.floor_log2_ratio n d - 52) (-1074)) in *.
  assert (He : e <= -45) by (unfold e; lia).
  replace (971 <? e) with false by (symmetry; apply Z.ltb_ge; lia).
  replace (e =? 971) with false by (symmetry; apply Z.eqb_neq; lia).
  assert (Hpow : 0 < 2 ^ (- e)) by (apply Z.pow_pos_nonneg; lia).
  assert (Hm : 0 <= PyFloat.scaled_round n d e <= bound * 2 ^ (- e)).
  { unfold PyFloat.scaled_round.
    replace (0 <=? e) with false by (symmetry; apply Z.leb_gt; lia).
    apply round_half_even_bounds; nia. }
  destruct (PyFloat.scaled_round n d e =? 2 ^ 53) eqn:Hcarry.
  - apply Z.eqb_eq in Hcarry.
    exists (2 ^ 52), (e + 1). split; [reflexivity|]. split; [lia|].
    assert (Hsplit : 2 ^ (- e) = 2 * 2 ^ (- (e + 1))).
    { replace (- e) with (Z.succ (- (e + 1))) by lia.
      apply Z.pow_succ_r. lia. }
    change (2 ^ 53) with (2 * 2 ^ 52) in Hcarry. lia.
  - exists (PyFloat.scaled_round n d e), e.
    split; [reflexivity|]. split; [lia | exact Hm].
Qed.

(** With 0 <= vote_count <= total_votes the percentage is shown, as a number
    of tenths between 0.0 and 100.0. *)
Lemma shown_percentage_within_bounds (vote_count total_votes : Z) :
  0 <= vote_count <= total_votes ->
  exists tenths,
    0 <= tenths <= 1000 /\
    shown_percentage vote_count total_votes = Ok (one_decimal tenths).
Proof.
  intros Hv. unfold shown_percentage, percentage.
  destruct (0 <? total_votes) eqn:Ht.
  - apply Z.ltb_lt in Ht.
    unfold PyFloat.int_truediv.
    replace (total_votes =? 0) with false by (symmetry; apply Z.eqb_neq; lia).
    replace (vote_count <? 0) with false by (symmetry; apply Z.ltb_ge; lia).
    replace (total_votes <? 0) with false by (symmetry; apply Z.ltb_ge; lia).
    rewrite (Z.abs_eq vote_count), (Z.abs_eq total_votes) by lia.
    cbv zeta. simpl xorb.
    destruct (round_to_double_bounded false vote_count total_votes 1 Ht
                ltac:(lia) ltac:(lia)) as (m & e & -> & He & Hm).
    cbn [rbind format_number_1f]. unfold PyFloat.mul_int.
    assert (Hpow : 0 < 2 ^ (- e)) by (apply Z.pow_pos_nonneg; lia).
    assert (Hprod :
      exists m' e',
        (if 0 <=? e then PyFloat.round_to_double false (m * 100 * 2 ^ e) 1
         else PyFloat.round_to_double false (m * 100) (2 ^ (- e)))
        = Some (PyFloat.Finite false m' e') /\
        e' <= 0 /\ 0 <= m' <= 100 * 2 ^ (- e')).
    { destruct (0 <=? e) eqn:He0.
      - apply Z.leb_le in He0. assert (e = 0) by lia. subst e.
        change (2 ^ (- 0)) with 1 in Hm. change (2 ^ 0) with 1.
        apply round_to_double_bounded; lia.
      - apply round_to_double_bounded; nia. }
    destruct Hprod as (m' & e' & -> & He' & Hm').
    unfold PyFloat.format_1f.
    exists (PyFloat.scaled_round (m' * 10) 1 (- e')).
    split; [|reflexivity].
    unfold PyFloat.scaled_round.
    replace (0 <=? - e') with true by (symmetry; apply Z.leb_le; lia).
    assert (0 < 2 ^ (- e')) by (apply Z.pow_pos_nonneg; lia).
    apply round_half_even_bounds; nia.
  - exists 0. split; [lia | reflexivity].
Qed.

(** The whole of a positive total is 100.0. *)
Lemma shown_percentage_all_votes (total_votes : Z) :
  0 < total_votes ->
  shown_percentage total_votes total_votes = Ok "100.0".
Proof.
  intros Ht. unfold shown_percentage, percentage.
  replace (0 <? total_votes) with true by (symmetry; apply Z.ltb_lt; lia).
  assert (Hdiv : PyFloat.int_truediv total_votes total_votes
                 = Ok (PyFloat.Finite false (2 ^ 52) (-52))).
  { unfold PyFloat.int_truediv.
    replace (total_votes =? 0) with false by (symmetry; apply Z.eqb_neq; lia).
    replace (total_votes <? 0) with false by (symmetry; apply Z.ltb_ge; lia).
    rewrite (Z.abs_eq total_votes) by lia. cbv zeta. simpl xorb.
    unfold PyFloat.round_to_double.
    replace (total_votes =? 0) with false by (symmetry; apply Z.eqb_neq; lia).
    assert (Hk : PyFloat.floor_log2_ratio total_votes total_votes = 0).
    { unfold PyFloat.floor_log2_ratio. rewrite Z.sub_diag. cbv zeta.
      change (0 <=? 0) with true. cbv iota.
      change (2 ^ 0) with 1. rewrite Z.mul_1_r, Z.leb_refl. reflexivity. }
    rewrite Hk. cbv zeta.
    change (Z.max (0 - 52) (-1074)) with (-52).
    change (971 <? -52) with false. cbv iota.
    assert (Hm : PyFloat.scaled_round total_votes total_votes (-52) = 2 ^ 52).
    { unfold PyFloat.scaled_round, PyFloat.round_half_even.
      change (0 <=? -52) with false. cbv iota zeta.
      change (- -52) with 52.
      rewrite (Z.mul_comm total_votes), Z.div_mul, Z_mod_mult by lia.
      change (2 * 0) with 0.
      destruct (Z.compare_spec 0 total_votes); [lia | reflexivity | lia]. }
    rewrite Hm. reflexivity. }
  rewrite Hdiv. reflexivity.
Qed.

Lemma option_block_shown (total_votes i : Z) (t : OptionTally) :
  option_block total_votes (i, t)
  = (shown <- shown_percentage (get_vote_count t) total_votes ;;
     Ok (block_text i t shown))%result.
Proof.
  unfold option_block, shown_percentage, block_text.
  destruct (percentage (get_vote_count t) total_votes); reflexivity.
Qed.

(** X2: in the report of a results list with non-negative vote counts every
    block is rendered, and the percentage it shows lies between 0.0 and
    100.0. *)
Theorem blocks_show_percentages_within_bounds (l : list OptionTally) :
  nonneg_counts l ->
  Forall (fun entry =>
            exists tenths,
              0 <= tenths <= 1000 /\
              option_block (votes_cast l) entry
              = Ok (block_text (fst entry) (snd entry) (one_decimal tenths)))
    (enumerate 1 (sorted_reverse get_vote_count l)).
Proof.
  intros Hnn. apply Forall_forall. intros [i t] Hin.
  apply enumerate_In in Hin.
  pose proof (ranked_within_total l Hnn) as Hall.
  rewrite Forall_forall in Hall. specialize (Hall t Hin).
  destruct (shown_percentage_within_bounds _ _ Hall) as (tenths & Hb & Hs).
  exists tenths. split; [exact Hb|].
  rewrite option_block_shown, Hs. reflexivity.
Qed.

Lemma blocks_show_percentages_within_bounds_witness :
  nonneg_counts [tally_B; tally_A] /\
  Forall (fun entry =>
            exists tenths,
              0 <= tenths <= 1000 /\
              option_block (votes_cast [tally_B; tally_A]) entry
              = Ok (block_text (fst entry) (snd entry) (one_decimal tenths)))
    (enumerate 1 (sorted_reverse get_vote_count [tally_B; tally_A])).
Proof.
  assert (Hnn : nonneg_counts [tally_B; tally_A]) by nonneg_counts_tac.
  split; [exact Hnn|].
  apply (blocks_show_percentages_within_bounds [tally_B; tally_A] Hnn).
Defined.

(** X3: an option that holds every vote of a poll with votes is shown at
    100.0%. *)
Theorem option_block_with_all_votes (i : Z) (t : OptionTally) :
  0 < get_vote_count t ->
  option_block (get_vote_count t) (i, t) = Ok (block_text i t "100.0").
Proof.
  intros Hv.
  rewrite option_block_shown, (shown_percentage_all_votes _ Hv). reflexivity.
Qed.

Lemma option_block_with_all_votes_witness :
  0 < get_vote_count tally_A /\
  option_block (get_vote_count tally_A) (1, tally_A)
  = Ok (block_text 1 tally_A "100.0").
Proof.
  assert (Hv : 0 < get_vote_count tally_A) by reflexivity.
  split; [exact Hv|].
  apply (option_block_with_all_votes 1 tally_A Hv).
Defined.

(** X4: an option without votes (vote_count 0 or missing) is shown with
    "Votes: 0 (0.0%)" whatever the total is, positive or not. *)
Theorem option_block_without_votes (total_votes i : Z) (t : OptionTally) :
  get_vote_count t = 0 ->
  option_block total_votes (i, t) = Ok (block_text i t "0.0") /\
  contains "Votes: 0 (0.0%)" (block_text i t "0.0") = true.
Proof.
  intros Hzero.
  assert (Hs : shown_percentage 0 total_votes = Ok "0.0").
  { unfold shown_percentage, percentage.
    destruct (0 <? total_votes) eqn:Ht; [|reflexivity].
    apply Z.ltb_lt in Ht. unfold PyFloat.int_truediv.
    replace (total_votes =? 0) with false by (symmetry; apply Z.eqb_neq; lia).
    replace (total_votes <? 0) with false by (symmetry; apply Z.ltb_ge; lia).
    reflexivity. }
  split.
  - rewrite option_block_shown, Hzero, Hs. reflexivity.
  - unfold block_text. rewrite Hzero.
    apply contains_app_r, contains_app_r, contains_app_r, contains_app_r.
    reflexivity.
Qed.

Lemma option_block_without_votes_witness :
  get_vote_count tally_blank = 0 /\
  option_block 7 (3, tally_blank) = Ok (block_text 3 tally_blank "0.0").
Proof.
  split; [reflexivity|].
  apply (proj1 (option_block_without_votes 7 3 tally_blank eq_refl)).
Defined.

(** ** One block per option *)

Lemma enumerate_length {A : Type} (l : list A) (start : Z) :
  List.length (enumerate start l) = List.length l.
Proof.
  revert start. induction l as [|x l IH]; intros start; simpl;
    [reflexivity | now rewrite IH].
Qed.

Lemma enumerate_nth {A : Type} (l : list A) (start : Z) (k : nat) (x : A) (b : Z * A) :
  (k < List.length l)%nat ->
  nth k (enumerate start l) b = (start + Z.of_nat k, nth k l x).
Proof.
  revert start k. induction l as [|y l IH]; intros start k Hk; simpl in Hk; [lia|].
  destruct k as [|k]; simpl enumerate; cbn [nth].
  - f_equal. lia.
  - rewrite IH by lia. f_equal. lia.
Qed.

Lemma Forall2_nth {A B : Type} (R : A -> B -> Prop) (l : list A) (l' : list B)
    (k : nat) (a : A) (b : B) :
  Forall2 R l l' -> (k < List.length l)%nat -> R (nth k l a) (nth k l' b).
Proof.
  intros H. revert k. induction H as [|x y l l' Hxy _ IH]; intros k Hk; simpl in Hk;
    [lia|].
  destruct k as [|k]; cbn [nth]; [exact Hxy | apply IH; lia].
Qed.

Lemma Forall2_same_length {A B : Type} (R : A -> B -> Prop) (l : list A) (l' : list B) :
  Forall2 R l l' -> List.length l = List.length l'.
Proof.
  induction 1; simpl; congruence.
Qed.

Lemma option_block_starts_with_rank (total_votes i : Z) (t : OptionTally) (b : string) :
  option_block total_votes (i, t) = Ok b ->
  starts_with (str_of_int i ++ ". ") b = true.
Proof.
  rewrite option_block_shown.
  destruct (shown_percentage (get_vote_count t) total_votes) as [shown|e];
    cbn [rbind]; [|discriminate].
  intros Hb. assert (b = block_text i t shown) by congruence. subst b.
  unfold block_text. rewrite <- string_app_assoc. apply starts_with_app.
Qed.

(** X5: the report of a non-empty results list with non-negative vote counts
    has exactly one block per option, and the k-th block (from 0) opens with
    the rank number k + 1. *)
Theorem report_numbers_one_block_per_option (d : PollResultsReport)
    (l : list OptionTally) :
  results d = Some l -> l <> [] -> nonneg_counts l ->
  exists blocks,
    format_poll_results (Some d)
    = Ok (header d ++ total_line (votes_cast l) ++ concat_strings blocks) /\
    List.length blocks = List.length l /\
    forall k, (k < List.length l)%nat ->
      starts_with (str_of_int (Z.of_nat k + 1) ++ ". ") (nth k blocks "") = true.
Proof.
  intros Hres Hne Hnn.
  destruct (blocks_total _ _ (ranked_within_total l Hnn)) as (blocks & Hb & Hall).
  assert (Hlen : List.length (sorted_reverse get_vote_count l) = List.length l).
  { apply Permutation_length, sorted_reverse_perm. }
  exists blocks. split; [|split].
  - rewrite (format_poll_results_ranked d l Hres Hne), Hb. reflexivity.
  - rewrite <- (Forall2_same_length _ _ _ Hall), enumerate_length. exact Hlen.
  - intros k Hk.
    pose proof (Forall2_nth _ _ _ k (0, tally_blank) "" Hall
                  ltac:(rewrite enumerate_length; lia)) as Hkth.
    cbv beta in Hkth.
    rewrite (enumerate_nth _ 1 k tally_blank) in Hkth by lia.
    replace (Z.of_nat k + 1) with (1 + Z.of_nat k) by lia.
    eapply option_block_starts_with_rank. exact Hkth.
Qed.

Lemma report_numbers_one_block_per_option_witness :
  nonneg_counts [tally_red; tally_green; tally_blue] /\
  exists blocks,
    format_poll_results (Some (report_of [tally_red; tally_green; tally_blue]))
    = Ok (header (report_of [tally_red; tally_green; tally_blue])
          ++ total_line (votes_cast [tally_red; tally_green; tally_blue])
          ++ concat_strings blocks) /\
    List.length blocks = List.length [tally_red; tally_green; tally_blue] /\
    forall k, (k < List.length [tally_red; tally_green; tally_blue])%nat ->
      starts_with (str_of_int (Z.of_nat k + 1) ++ ". ") (nth k blocks "") = true.
Proof.
  assert (Hnn : nonneg_counts [tally_red; tally_green; tally_blue])
    by nonneg_counts_tac.
  split; [exact Hnn|].
  apply (report_numbers_one_block_per_option
           (report_of [tally_red; tally_green; tally_blue])
           [tally_red; tally_green; tally_blue] eq_refl ltac:(discriminate) Hnn).
Defined.

(** ** The order of the input *)

Section Uniqueness.

Context {A : Type} (key : A -> Z).

Lemma descending_head_max (x : A) (l : list A) (y : A) :
  descending key (x :: l) -> In y (x :: l) -> key y <= key x.
Proof.
  unfold descending. intros Hs Hin.
  inversion Hs as [|? ? _ Hx]; subst.
  destruct Hin as [<-|Hin]; [lia|].
  rewrite Forall_forall in Hx. now apply Hx.
Qed.

Lemma NoDup_keys_injective (l : list A) (x y : A) :
  NoDup (map key l) -> In x l -> In y l -> key x = key y -> x = y.
Proof.
  induction l as [|z l IH]; simpl; [tauto|].
  intros Hnd Hx Hy Hk. inversion Hnd as [|? ? Hz Hnd']; subst.
  destruct Hx as [<-|Hx], Hy as [<-|Hy]; try reflexivity.
  - exfalso. apply Hz. rewrite Hk. now apply in_map.
  - exfalso. apply Hz. rewrite <- Hk. now apply in_map.
  - now apply IH.
Qed.

(** Two rankings of the same entries coincide when no two keys are equal. *)
Lemma descending_unique (l1 l2 : list A) :
  descending key l1 -> descending key l2 ->
  NoDup (map key l1) -> Permutation l1 l2 -> l1 = l2.
Proof.
  revert l2. induction l1 as [|a l1 IH]; intros l2 H1 H2 Hnd Hperm.
  - apply Permutation_nil in Hperm. now subst.
  - destruct l2 as [|b l2].
    { apply Permutation_sym, Permutation_nil in Hperm. discriminate. }
    assert (Hb : In b (a :: l1)).
    { eapply Permutation_in; [apply Permutation_sym, Hperm | now left]. }
    assert (Ha : In a (b :: l2)).
    { eapply Permutation_in; [exact Hperm | now left]. }
    pose proof (descending_head_max _ _ _ H1 Hb) as Hba.
    pose proof (descending_head_max _ _ _ H2 Ha) as Hab.
    assert (b = a).
    { apply (NoDup_keys_injective (a :: l1)); auto; [now left | lia]. }
    subst b. f_equal.
    apply IH.
    + unfold descending in *. now inversion H1.
    + unfold descending in *. now inversion H2.
    + now inversion Hnd.
    + eapply Permutation_cons_inv. exact Hperm.
Qed.

Lemma sorted_reverse_order_independent (l l' : list A) :
  NoDup (map key l) -> Permutation l l' ->
  sorted_reverse key l = sorted_reverse key l'.
Proof.
  intros Hnd Hperm. apply descending_unique.
  - apply sorted_reverse_descending.
  - apply sorted_reverse_descending.
  - eapply Permutation_NoDup; [|exact Hnd].
    apply Permutation_map, Permutation_sym, sorted_reverse_perm.
  - eapply perm_trans; [apply sorted_reverse_perm|].
    eapply perm_trans; [exact Hperm|].
    apply Permutation_sym, sorted_reverse_perm.
Qed.

End Uniqueness.

Lemma votes_cast_perm (l l' : list OptionTally) :
  Permutation l l' -> votes_cast l = votes_cast l'.
Proof.
  unfold votes_cast. induction 1; simpl; lia.
Qed.

(** X6: when no two options have the same vote count, the report does not
    depend on the order in which the results list gives them: any
    rearrangement of the list yields the same text (or the same error). *)
Theorem report_independent_of_input_order (pid : option Z) (q : option string)
    (l l' : list OptionTally) :
  NoDup (map get_vote_count l) -> Permutation l l' ->
  format_poll_results
    (Some {| poll_id := pid; question := q; results := Some l |})
  = format_poll_results
      (Some {| poll_id := pid; question := q; results := Some l' |}).
Proof.
  intros Hnd Hperm.
  destruct l as [|t l].
  { apply Permutation_nil in Hperm. now subst. }
  destruct l' as [|t' l'].
  { apply Permutation_sym, Permutation_nil in Hperm. discriminate. }
  rewrite (format_poll_results_ranked
             {| poll_id := pid; question := q; results := Some (t :: l) |}
             (t :: l) eq_refl ltac:(discriminate)).
  rewrite (format_poll_results_ranked
             {| poll_id := pid; question := q; results := Some (t' :: l') |}
             (t' :: l') eq_refl ltac:(discriminate)).
  rewrite (sorted_reverse_order_independent get_vote_count _ _ Hnd Hperm).
  rewrite (votes_cast_perm _ _ Hperm).
  reflexivity.
Qed.

Lemma report_independent_of_input_order_witness :
  format_poll_results (Some (report_of [tally_A; tally_B]))
  = format_poll_results (Some (report_of [tally_B; tally_A])).
Proof.
  apply (report_independent_of_input_order (Some 7) (Some "Colour?")
           [tally_A; tally_B] [tally_B; tally_A]).
  - repeat constructor; simpl; intuition discriminate.
  - apply perm_swap.
Defined.

(** ** One request per call *)

Ltac guard_true b :=
  replace b with true by (symmetry; first
    [ apply Z.ltb_lt; lia | apply Z.leb_le; lia | apply Z.eqb_eq; lia ]).

Ltac guard_false b :=
  replace b with false by (symmetry; first
    [ apply Z.ltb_ge; lia | apply Z.leb_gt; lia | apply Z.eqb_neq; lia
    | apply String.eqb_neq; assumption ]).

Lemma raise_for_status_error (r : response) :
  400 <= status_code r < 600 ->
  exists msg, raise_for_status r = Raise (HTTPError msg).
Proof.
  intros Hcode. unfold raise_for_status. cbv zeta.
  guard_true (400 <=? status_code r).
  destruct (status_code r <? 500) eqn:H500; cbn [andb]; [eauto|].
  apply Z.ltb_ge in H500.
  guard_true (500 <=? status_code r). guard_true (status_code r <? 600).
  cbn [andb]. eauto.
Qed.

(** X7: with valid arguments every operation sends exactly one request,
    whatever comes back: fetch_polls a GET on /polls with the skip and limit
    parameters, both forms of get_poll_results a GET on
    /polls/<id>/results, vote_on_poll a POST on /polls/<id>/vote whose JSON
    body is {"option_id": <option_id>} and whose Authorization header is
    "Bearer <access_token>", register_user a POST on /register whose JSON body
    holds the username and the password. *)
Theorem valid_call_sends_one_request (server : request -> outcome)
    (str_exn : exn -> string) (dec : bool) (base_url : string) (log : list request) :
  (forall skip limit, 0 <= skip -> 0 < limit ->
     snd (fetch_polls server dec skip limit base_url log)
     = (log ++ [polls_request base_url skip limit])%list) /\
  (forall poll_id, 0 < poll_id ->
     snd (get_poll_results server str_exn dec poll_id base_url log)
     = (log ++ [results_request base_url poll_id])%list /\
     snd (get_poll_results_with_error_handling server str_exn dec poll_id base_url log)
     = (log ++ [results_request base_url poll_id])%list) /\
  (forall poll_id option_id access_token,
     0 < poll_id -> 0 < option_id -> access_token <> "" ->
     snd (vote_on_poll server str_exn dec poll_id option_id access_token base_url log)
     = (log ++ [vote_request base_url poll_id option_id access_token])%list) /\
  (forall username password, username <> "" -> password <> "" ->
     snd (register_user server username password base_url log)
     = (log ++ [register_request base_url username password])%list).
Proof.
  split; [|split; [|split]].
  - intros skip limit Hs Hl. unfold fetch_polls.
    guard_false (skip <? 0). guard_false (limit <=? 0).
    rewrite try_reraise_log. unfold polls_request. run_io.
    destruct (server _) as [r|e]; [|reflexivity].
    destruct (status_code r =? 200); [reflexivity|].
    destruct (raise_for_status r) as [[]|e]; reflexivity.
  - intros poll_id Hp. split.
    + unfold get_poll_results. positive_id Hp.
      rewrite try_reraise_log. unfold results_request, results_url. run_io.
      destruct (server _) as [r|e]; [|reflexivity].
      destruct (status_code r =? 200); [reflexivity|].
      destruct (status_code r =? 404); [reflexivity|].
      destruct (raise_for_status r) as [[]|e]; reflexivity.
    + unfold get_poll_results_with_error_handling. positive_id Hp.
      unfold results_request, results_url. run_io.
      assert (Hhandler : forall (e : exn) (l : list request),
        snd (match
               (if is_connection_error e
                then Some (fun l0 : list request =>
                  (Ok (false, PNone,
                       PStr "Connection error: Could not connect to the server"), l0))
                else if is_timeout e
                then Some (fun l0 : list request =>
                  (Ok (false, PNone,
                       PStr "Request timeout: Server took too long to respond"), l0))
                else if is_request_exception dec e
                then Some (fun l0 : list request =>
                  (Ok (false, PNone, PStr ("Request error: " ++ str_exn e)), l0))
                else if is_json_decode_error e
                then Some (fun l0 : list request =>
                  (Ok (false, PNone, PStr "Invalid JSON response from server"), l0))
                else Some (fun l0 : list request =>
                  (Ok (false, PNone, PStr ("Unexpected error: " ++ str_exn e)), l0)))
             with
             | Some h => h l
             | None => (Raise e, l)
             end) = l).
      { intros e l.
        destruct (is_connection_error e), (is_timeout e),
          (is_request_exception dec e), (is_json_decode_error e); reflexivity. }
      destruct (server _) as [r|e]; [|apply Hhandler].
      destruct (status_code r =? 200).
      * destruct (resp_json r) as [v|e]; [reflexivity | apply Hhandler].
      * destruct (status_code r =? 404); reflexivity.
  - intros poll_id option_id access_token Hp Ho Ht. unfold vote_on_poll.
    positive_id Hp. positive_id Ho. guard_false (String.eqb access_token "").
    rewrite try_reraise_log. unfold vote_request. run_io.
    destruct (server _) as [r|e]; [|reflexivity].
    destruct (status_code r =? 200); [reflexivity|].
    destruct (status_code r =? 401); [reflexivity|].
    destruct (status_code r =? 404); [reflexivity|].
    destruct (raise_for_status r) as [[]|e]; reflexivity.
  - intros username password Hu Hp. unfold register_user.
    guard_false (String.eqb username ""). guard_false (String.eqb password "").
    cbn [orb]. unfold register_request. run_io.
    destruct (server _) as [r|e]; [|reflexivity].
    destruct (status_code r =? 200); [reflexivity|].
    destruct (status_code r =? 400); [reflexivity|].
    destruct (raise_for_status r) as [[]|e]; reflexivity.
Qed.

Lemma valid_call_sends_one_request_witness :
  snd (fetch_polls (always (mk_response 200 "OK" (Ok (PList [])))) true 0 10
         local_url [])
  = [polls_request local_url 0 10] /\
  snd (get_poll_results (always (mk_response 500 "Internal Server Error" no_body))
         message_of true 4 local_url [])
  = [results_request local_url 4] /\
  snd (vote_on_poll (always (mk_response 401 "Unauthorized" no_body))
         message_of true 4 2 "token" local_url [])
  = [vote_request local_url 4 2 "token"] /\
  snd (register_user (always (mk_response 400 "Bad Request" no_body))
         "ann" "secret" local_url [])
  = [register_request local_url "ann" "secret"].
Proof.
  split; [|split; [|split]].
  - apply (proj1 (valid_call_sends_one_request
                    (always (mk_response 200 "OK" (Ok (PList [])))) message_of true
                    local_url []) 0 10); lia.
  - apply (proj1 (proj2 (valid_call_sends_one_request
                    (always (mk_response 500 "Internal Server Error" no_body))
                    message_of true local_url [])) 4 ltac:(lia)).
  - apply (proj1 (proj2 (proj2 (valid_call_sends_one_request
                    (always (mk_response 401 "Unauthorized" no_body))
                    message_of true local_url []))) 4 2 "token");
      [lia | lia | discriminate].
  - apply (proj2 (proj2 (proj2 (valid_call_sends_one_request
                    (always (mk_response 400 "Bad Request" no_body))
                    message_of true local_url []))) "ann" "secret");
      discriminate.
Defined.

(** ** What each status becomes *)

(** X8: vote_on_poll, given valid arguments and an answer to its request,
    returns the decoded body on 200, raises ValueError("Unauthorized: Invalid
    or expired access token") on 401 and ValueError("Poll or option not
    found") on 404, neither of them wrapped, and on any other 4xx or 5xx
    status raises RequestException("Failed to vote on poll: ...") around the
    HTTPError of raise_for_status. *)
Theorem vote_on_poll_status_dispatch (server : request -> outcome)
    (str_exn : exn -> string) (dec : bool) (poll_id option_id : Z)
    (access_token base_url : string) (log : list request) (resp : response) :
  0 < poll_id -> 0 < option_id -> access_token <> "" ->
  server (vote_request base_url poll_id option_id access_token) = Responds resp ->
  (forall v, status_code resp = 200 -> resp_json resp = Ok v ->
     fst (vote_on_poll server str_exn dec poll_id option_id access_token base_url log)
     = Ok v) /\
  (status_code resp = 401 ->
   fst (vote_on_poll server str_exn dec poll_id option_id access_token base_url log)
   = Raise (ValueError [PStr "Unauthorized: Invalid or expired access token"])) /\
  (status_code resp = 404 ->
   fst (vote_on_poll server str_exn dec poll_id option_id access_token base_url log)
   = Raise (ValueError [PStr "Poll or option not found"])) /\
  (400 <= status_code resp < 600 ->
   status_code resp <> 401 -> status_code resp <> 404 ->
   exists msg,
     raise_for_status resp = Raise (HTTPError msg) /\
     fst (vote_on_poll server str_exn dec poll_id option_id access_token base_url log)
     = Raise (RequestException ("Failed to vote on poll: " ++ str_exn (HTTPError msg)))).
Proof.
  intros Hp Ho Ht Hserver.
  assert (Hrun :
    fst (vote_on_poll server str_exn dec poll_id option_id access_token base_url log)
    = fst (try_except
             (if status_code resp =? 200 then lift (resp_json resp)
              else if status_code resp =? 401
              then raise (ValueError [PStr "Unauthorized: Invalid or expired access token"])
              else if status_code resp =? 404
              then raise (ValueError [PStr "Poll or option not found"])
              else bind (lift (raise_for_status resp)) (fun _ => ret PNone))
             (reraise_request_exception dec
                (fun e => "Failed to vote on poll: " ++ str_exn e))
             (log ++ [vote_request base_url poll_id option_id access_token])%list)).
  { unfold vote_on_poll. positive_id Hp. positive_id Ho.
    guard_false (String.eqb access_token "").
    unfold try_except at 1. unfold bind at 1. unfold requests_post, send.
    fold (vote_request base_url poll_id option_id access_token).
    rewrite Hserver. unfold try_except. reflexivity. }
  rewrite Hrun. clear Hrun. split; [|split; [|split]].
  - intros v H200 Hbody. rewrite H200. cbn [Z.eqb Pos.eqb].
    unfold try_except, lift. rewrite Hbody. reflexivity.
  - intros H401. rewrite H401. reflexivity.
  - intros H404. rewrite H404. reflexivity.
  - intros Hcode H401 H404.
    destruct (raise_for_status_error resp Hcode) as (msg & Hmsg).
    exists msg. split; [exact Hmsg|].
    guard_false (status_code resp =? 200). guard_false (status_code resp =? 401).
    guard_false (status_code resp =? 404).
    unfold try_except, bind, lift. rewrite Hmsg. reflexivity.
Qed.

Lemma vote_on_poll_status_dispatch_witness :
  fst (vote_on_poll (always (mk_response 401 "Unauthorized" no_body))
         message_of true 4 2 "token" local_url [])
  = Raise (ValueError [PStr "Unauthorized: Invalid or expired access token"]).
Proof.
  apply (proj1 (proj2 (vote_on_poll_status_dispatch
                         (always (mk_response 401 "Unauthorized" no_body))
                         message_of true 4 2 "token" local_url []
                         (mk_response 401 "Unauthorized" no_body)
                         ltac:(lia) ltac:(lia) ltac:(discriminate) eq_refl))).
  reflexivity.
Defined.

(** X9: login_and_get_token, given an answer to its request, returns the
    value under "access_token" when the status is 200 and the body is a JSON
    object with that key, raises KeyError("access_token") when the object
    lacks the key (the error is not wrapped), raises
    ValueError("Incorrect username or password") on 400, and on any other
    4xx or 5xx status raises RequestException("Failed to login: ..."). *)
Theorem login_and_get_token_status_dispatch (server : request -> outcome)
    (str_exn : exn -> string) (dec : bool) (username password base_url : string)
    (log : list request) (resp : response) :
  server (login_request base_url username password) = Responds resp ->
  (forall items token, status_code resp = 200 ->
     resp_json resp = Ok (PDict items) -> dict_get "access_token" items = Some token ->
     fst (login_and_get_token server str_exn dec username password base_url log)
     = Ok token) /\
  (forall items, status_code resp = 200 ->
     resp_json resp = Ok (PDict items) -> dict_get "access_token" items = None ->
     fst (login_and_get_token server str_exn dec username password base_url log)
     = Raise (KeyError "access_token")) /\
  (status_code resp = 400 ->
   fst (login_and_get_token server str_exn dec username password base_url log)
   = Raise (ValueError [PStr "Incorrect username or password"])) /\
  (400 < status_code resp < 600 ->
   exists msg,
     raise_for_status resp = Raise (HTTPError msg) /\
     fst (login_and_get_token server str_exn dec username password base_url log)
     = Raise (RequestException ("Failed to login: " ++ str_exn (HTTPError msg)))).
Proof.
  intros Hserver.
  assert (Hrun :
    fst (login_and_get_token server str_exn dec username password base_url log)
    = fst (try_except
             (if status_code resp =? 200
              then bind (lift (resp_json resp))
                     (fun token_data => lift (getitem token_data "access_token"))
              else if status_code resp =? 400
              then raise (ValueError [PStr "Incorrect username or password"])
              else bind (lift (raise_for_status resp)) (fun _ => ret PNone))
             (reraise_request_exception dec
                (fun e => "Failed to login: " ++ str_exn e))
             (log ++ [login_request base_url username password])%list)).
  { unfold login_and_get_token.
    unfold try_except at 1. unfold bind at 1. unfold requests_post, send.
    fold (login_request base_url username password).
    rewrite Hserver. unfold try_except. reflexivity. }
  rewrite Hrun. clear Hrun. split; [|split; [|split]].
  - intros items token H200 Hbody Htoken. rewrite H200. cbn [Z.eqb Pos.eqb].
    unfold try_except, bind, lift. rewrite Hbody. unfold getitem.
    rewrite Htoken. reflexivity.
  - intros items H200 Hbody Htoken. rewrite H200. cbn [Z.eqb Pos.eqb].
    unfold try_except, bind, lift. rewrite Hbody. unfold getitem.
    rewrite Htoken. reflexivity.
  - intros H400. rewrite H400. reflexivity.
  - intros Hcode.
    destruct (raise_for_status_error resp ltac:(lia)) as (msg & Hmsg).
    exists msg. split; [exact Hmsg|].
    guard_false (status_code resp =? 200). guard_false (status_code resp =? 400).
    unfold try_except, bind, lift. rewrite Hmsg. reflexivity.
Qed.

Lemma login_and_get_token_status_dispatch_witness :
  fst (login_and_get_token
         (always (mk_response 200 "OK"
                    (Ok (PDict [("access_token", PStr "abc"); ("token_type", PStr "bearer")]))))
         message_of true "ann" "secret" local_url [])
  = Ok (PStr "abc").
Proof.
  apply (proj1 (login_and_get_token_status_dispatch
                  (always (mk_response 200 "OK"
                             (Ok (PDict [("access_token", PStr "abc");
                                         ("token_type", PStr "bearer")]))))
                  message_of true "ann" "secret" local_url []
                  (mk_response 200 "OK"
                     (Ok (PDict [("access_token", PStr "abc");
                                 ("token_type", PStr "bearer")])))
                  eq_refl)
           [("access_token", PStr "abc"); ("token_type", PStr "bearer")] (PStr "abc")
           eq_refl eq_refl eq_refl).
Defined.

(** X10: register_user has no handler of its own. Given valid arguments,
    whatever exception the transport raises reaches the caller unchanged, a
    200 answer gives the decoded body, a 400 answer raises
    ValueError(400, "Username already registered"), and any other 4xx or 5xx
    answer raises the HTTPError of raise_for_status itself. *)
Theorem register_user_outcomes (server : request -> outcome)
    (username password base_url : string) (log : list request) :
  username <> "" -> password <> "" ->
  (forall e, server (register_request base_url username password) = Fails e ->
     fst (register_user server username password base_url log) = Raise e) /\
  (forall resp, server (register_request base_url username password) = Responds resp ->
     (status_code resp = 200 ->
      fst (register_user server username password base_url log) = resp_json resp) /\
     (status_code resp = 400 ->
      fst (register_user server username password base_url log)
      = Raise (ValueError [PInt 400; PStr "Username already registered"])) /\
     (400 < status_code resp < 600 ->
      exists msg,
        raise_for_status resp = Raise (HTTPError msg) /\
        fst (register_user server username password base_url log)
        = Raise (HTTPError msg))).
Proof.
  intros Hu Hp.
  assert (Hguard : String.eqb username "" || String.eqb password "" = false).
  { apply orb_false_iff. split; apply String.eqb_neq; assumption. }
  split.
  - intros e Hserver. unfold register_user. rewrite Hguard. run_io.
    fold (register_request base_url username password). now rewrite Hserver.
  - intros resp Hserver.
    assert (Hrun :
      fst (register_user server username password base_url log)
      = fst ((if status_code resp =? 200 then lift (resp_json resp)
              else if status_code resp =? 400
              then raise (ValueError [PInt 400; PStr "Username already registered"])
              else bind (lift (raise_for_status resp)) (fun _ => ret PNone))
               (log ++ [register_request base_url username password])%list)).
    { unfold register_user. rewrite Hguard.
      unfold bind at 1. unfold requests_post, send.
      fold (register_request base_url username password).
      now rewrite Hserver. }
    rewrite Hrun. clear Hrun. split; [|split].
    + intros H200. rewrite H200. reflexivity.
    + intros H400. rewrite H400. reflexivity.
    + intros Hcode.
      destruct (raise_for_status_error resp ltac:(lia)) as (msg & Hmsg).
      exists msg. split; [exact Hmsg|].
      guard_false (status_code resp =? 200). guard_false (status_code resp =? 400).
      unfold bind, lift. rewrite Hmsg. reflexivity.
Qed.

Lemma register_user_outcomes_witness :
  fst (register_user (always (mk_response 400 "Bad Request" no_body))
         "ann" "secret" local_url [])
  = Raise (ValueError [PInt 400; PStr "Username already registered"]).
Proof.
  apply (proj1 (proj2 (proj2 (register_user_outcomes
                         (always (mk_response 400 "Bad Request" no_body))
                         "ann" "secret" local_url []
                         ltac:(discriminate) ltac:(discriminate))
                       (mk_response 400 "Bad Request" no_body) eq_refl))).
  reflexivity.
Defined.

(** What a handler that only re-raises makes of the body's result. *)
Lemma try_reraise_result {A : Type} (dec : bool) (msg : exn -> string)
    (c : io A) (log : list request) :
  fst (try_except c (reraise_request_exception dec msg) log)
  = match fst (c log) with
    | Ok a => Ok a
    | Raise e =>
        if is_request_exception dec e then Raise (RequestException (msg e))
        else Raise e
    end.
Proof.
  unfold try_except, reraise_request_exception.
  destruct (c log) as [[a|e] log']; [reflexivity|].
  cbn [fst]. destruct (is_request_exception dec e); reflexivity.
Qed.

(** X11: fetch_polls, given valid arguments and an answer to its request,
    returns the decoded body on 200; when the body of a 200 answer does not
    decode, the decoding error is replaced by
    RequestException("Failed to fetch polls") if it is a RequestException and
    reaches the caller unchanged otherwise; every 4xx or 5xx answer raises
    RequestException("Failed to fetch polls"), which carries neither the
    status nor the reason. *)
Theorem fetch_polls_status_dispatch (server : request -> outcome) (dec : bool)
    (skip limit : Z) (base_url : string) (log : list request) (resp : response) :
  0 <= skip -> 0 < limit ->
  server (polls_request base_url skip limit) = Responds resp ->
  (forall v, status_code resp = 200 -> resp_json resp = Ok v ->
     fst (fetch_polls server dec skip limit base_url log) = Ok v) /\
  (forall e, status_code resp = 200 -> resp_json resp = Raise e ->
     fst (fetch_polls server dec skip limit base_url log)
     = if is_request_exception dec e
       then Raise (RequestException "Failed to fetch polls")
       else Raise e) /\
  (400 <= status_code resp < 600 ->
   fst (fetch_polls server dec skip limit base_url log)
   = Raise (RequestException "Failed to fetch polls")).
Proof.
  intros Hs Hl Hserver. unfold fetch_polls.
  guard_false (skip <? 0). guard_false (limit <=? 0).
  rewrite try_reraise_result. unfold bind, lift, ret, requests_get, send.
  fold (polls_request base_url skip limit). rewrite Hserver. cbv beta iota.
  split; [|split].
  - intros v H200 Hbody. rewrite H200. cbn [Z.eqb Pos.eqb fst].
    now rewrite Hbody.
  - intros e H200 Hbody. rewrite H200. cbn [Z.eqb Pos.eqb fst].
    now rewrite Hbody.
  - intros Hcode.
    destruct (raise_for_status_error resp Hcode) as (msg & Hmsg).
    guard_false (status_code resp =? 200).
    rewrite Hmsg. reflexivity.
Qed.

Lemma fetch_polls_status_dispatch_witness :
  fst (fetch_polls (always (mk_response 503 "Service Unavailable" no_body)) true
         0 10 local_url [])
  = Raise (RequestException "Failed to fetch polls").
Proof.
  apply (proj2 (proj2 (fetch_polls_status_dispatch
                         (always (mk_response 503 "Service Unavailable" no_body))
                         true 0 10 local_url []
                         (mk_response 503 "Service Unavailable" no_body)
                         ltac:(lia) ltac:(lia) eq_refl))).
  simpl. lia.
Defined.

(** X12: get_poll_results, given a positive poll id and an answer to its
    request, returns the decoded body on 200, and on every 4xx or 5xx status
    other than 404 raises RequestException("Failed to get poll results: ...")
    around the HTTPError of raise_for_status. *)
Theorem get_poll_results_status_dispatch (server : request -> outcome)
    (str_exn : exn -> string) (dec : bool) (poll_id : Z) (base_url : string)
    (log : list request) (resp : response) :
  0 < poll_id ->
  server (results_request base_url poll_id) = Responds resp ->
  (forall v, status_code resp = 200 -> resp_json resp = Ok v ->
     fst (get_poll_results server str_exn dec poll_id base_url log) = Ok v) /\
  (400 <= status_code resp < 600 -> status_code resp <> 404 ->
   exists msg,
     raise_for_status resp = Raise (HTTPError msg) /\
     fst (get_poll_results server str_exn dec poll_id base_url log)
     = Raise (RequestException
                ("Failed to get poll results: " ++ str_exn (HTTPError msg)))).
Proof.
  intros Hp Hserver. unfold get_poll_results. positive_id Hp.
  rewrite try_reraise_result. unfold bind, lift, ret, raise, requests_get, send.
  fold (results_url base_url poll_id).
  change (mk_get (results_url base_url poll_id) [])
    with (results_request base_url poll_id).
  rewrite Hserver. cbv beta iota. split.
  - intros v H200 Hbody. rewrite H200. cbn [Z.eqb Pos.eqb fst].
    now rewrite Hbody.
  - intros Hcode H404.
    destruct (raise_for_status_error resp Hcode) as (msg & Hmsg).
    exists msg. split; [exact Hmsg|].
    guard_false (status_code resp =? 200). guard_false (status_code resp =? 404).
    rewrite Hmsg. reflexivity.
Qed.

Lemma get_poll_results_status_dispatch_witness :
  fst (get_poll_results
         (always (mk_response 200 "OK" (Ok (PDict [("poll_id", PInt 4)]))))
         message_of true 4 local_url [])
  = Ok (PDict [("poll_id", PInt 4)]).
Proof.
  apply (proj1 (get_poll_results_status_dispatch
                  (always (mk_response 200 "OK" (Ok (PDict [("poll_id", PInt 4)]))))
                  message_of true 4 local_url []
                  (mk_response 200 "OK" (Ok (PDict [("poll_id", PInt 4)])))
                  ltac:(lia) eq_refl)
           (PDict [("poll_id", PInt 4)]) eq_refl eq_refl).
Defined.

(** ** Transport failures *)

(** X13: when the transport raises instead of answering, fetch_polls,
    get_poll_results, vote_on_poll and login_and_get_token replace a
    RequestException by a new RequestException with their own message
    (fetch_polls drops the original text, the others append str(e)) and let
    every other exception through unchanged. *)
Theorem transport_failure_is_rewrapped (network : request -> outcome)
    (str_exn : exn -> string) (dec : bool) (base_url : string)
    (log : list request) (e : exn) :
  (forall skip limit, 0 <= skip -> 0 < limit ->
     network (polls_request base_url skip limit) = Fails e ->
     fst (fetch_polls network dec skip limit base_url log)
     = if is_request_exception dec e
       then Raise (RequestException "Failed to fetch polls")
       else Raise e) /\
  (forall poll_id, 0 < poll_id ->
     network (results_request base_url poll_id) = Fails e ->
     fst (get_poll_results network str_exn dec poll_id base_url log)
     = if is_request_exception dec e
       then Raise (RequestException ("Failed to get poll results: " ++ str_exn e))
       else Raise e) /\
  (forall poll_id option_id access_token,
     0 < poll_id -> 0 < option_id -> access_token <> "" ->
     network (vote_request base_url poll_id option_id access_token) = Fails e ->
     fst (vote_on_poll network str_exn dec poll_id option_id access_token base_url log)
     = if is_request_exception dec e
       then Raise (RequestException ("Failed to vote on poll: " ++ str_exn e))
       else Raise e) /\
  (forall username password,
     network (login_request base_url username password) = Fails e ->
     fst (login_and_get_token network str_exn dec username password base_url log)
     = if is_request_exception dec e
       then Raise (RequestException ("Failed to login: " ++ str_exn e))
       else Raise e).
Proof.
  split; [|split; [|split]].
  - intros skip limit Hs Hl Hfail. unfold fetch_polls.
    guard_false (skip <? 0). guard_false (limit <=? 0).
    rewrite try_reraise_result. unfold bind, requests_get, send.
    fold (polls_request base_url skip limit). now rewrite Hfail.
  - intros poll_id Hp Hfail. unfold get_poll_results. positive_id Hp.
    rewrite try_reraise_result. unfold bind, requests_get, send.
    fold (results_url base_url poll_id).
    change (mk_get (results_url base_url poll_id) [])
      with (results_request base_url poll_id).
    now rewrite Hfail.
  - intros poll_id option_id access_token Hp Ho Ht Hfail. unfold vote_on_poll.
    positive_id Hp. positive_id Ho. guard_false (String.eqb access_token "").
    rewrite try_reraise_result. unfold bind, requests_post, send.
    fold (vote_request base_url poll_id option_id access_token).
    now rewrite Hfail.
  - intros username password Hfail. unfold login_and_get_token.
    rewrite try_reraise_result. unfold bind, requests_post, send.
    fold (login_request base_url username password). now rewrite Hfail.
Qed.

Lemma transport_failure_is_rewrapped_witness :
  fst (fetch_polls (fun _ => Fails (ConnectionError "refused")) true 0 10 local_url [])
  = Raise (RequestException "Failed to fetch polls") /\
  fst (get_poll_results (fun _ => Fails (OtherException "boom")) message_of true
         4 local_url [])
  = Raise (OtherException "boom").
Proof.
  split.
  - apply (proj1 (transport_failure_is_rewrapped
                    (fun _ => Fails (ConnectionError "refused")) message_of true
                    local_url [] (ConnectionError "refused")) 0 10);
      [lia | lia | reflexivity].
  - apply (proj1 (proj2 (transport_failure_is_rewrapped
                    (fun _ => Fails (OtherException "boom")) message_of true
                    local_url [] (OtherException "boom"))) 4);
      [lia | reflexivity].
Defined.

(** X14: when the transport raises instead of answering a valid call,
    get_poll_results_with_error_handling returns (False, None, message): the
    connection message for a ConnectionError and for a ConnectTimeout (the
    first clause wins), the timeout message for any other Timeout,
    "Request error: ..." for the remaining RequestExceptions, and
    "Unexpected error: ..." for everything else; a decoding error gets
    "Request error: ..." when it is a RequestException and
    "Invalid JSON response from server" when it is not, also when it comes
    from the body of a 200 answer. *)
Theorem error_handling_names_transport_failures (network : request -> outcome)
    (str_exn : exn -> string) (dec : bool) (poll_id : Z) (base_url : string)
    (log : list request) :
  0 < poll_id ->
  let outcome_of (e : exn) : pyobj :=
    match e with
    | ConnectionError _ | ConnectTimeout _ =>
        PStr "Connection error: Could not connect to the server"
    | Timeout _ => PStr "Request timeout: Server took too long to respond"
    | RequestException _ | HTTPError _ => PStr ("Request error: " ++ str_exn e)
    | JSONDecodeError _ =>
        if dec then PStr ("Request error: " ++ str_exn e)
        else PStr "Invalid JSON response from server"
    | _ => PStr ("Unexpected error: " ++ str_exn e)
    end in
  (forall e, network (results_request base_url poll_id) = Fails e ->
     fst (get_poll_results_with_error_handling network str_exn dec poll_id base_url log)
     = Ok (false, PNone, outcome_of e)) /\
  (forall resp e, network (results_request base_url poll_id) = Responds resp ->
     status_code resp = 200 -> resp_json resp = Raise e ->
     fst (get_poll_results_with_error_handling network str_exn dec poll_id base_url log)
     = Ok (false, PNone, outcome_of e)).
Proof.
  intros Hp outcome_of. split.
  - intros e Hfail. unfold get_poll_results_with_error_handling. positive_id Hp.
    run_io. fold (results_url base_url poll_id).
    change (mk_get (results_url base_url poll_id) [])
      with (results_request base_url poll_id).
    rewrite Hfail. destruct e; try reflexivity.
    simpl. destruct dec; reflexivity.
  - intros resp e Hserver H200 Hbody.
    unfold get_poll_results_with_error_handling. positive_id Hp.
    run_io. fold (results_url base_url poll_id).
    change (mk_get (results_url base_url poll_id) [])
      with (results_request base_url poll_id).
    rewrite Hserver, H200. cbn [Z.eqb Pos.eqb]. rewrite Hbody.
    destruct e; try reflexivity.
    simpl. destruct dec; reflexivity.
Qed.

Lemma error_handling_names_transport_failures_witness :
  fst (get_poll_results_with_error_handling
         (fun _ => Fails (ConnectTimeout "timed out")) message_of true 4 local_url [])
  = Ok (false, PNone, PStr "Connection error: Could not connect to the server").
Proof.
  apply (proj1 (error_handling_names_transport_failures
                  (fun _ => Fails (ConnectTimeout "timed out")) message_of true
                  4 local_url [] ltac:(lia))
           (ConnectTimeout "timed out") eq_refl).
Defined.

(** X16: the two forms of get_poll_results agree. They send the same
    requests; when the triple form reports success with some data, the
    raising form returns that data; and when the raising form raises, the
    triple form reports a failure. *)
Theorem both_forms_agree (server : request -> outcome) (str_exn : exn -> string)
    (dec : bool) (poll_id : Z) (base_url : string) (log : list request) :
  snd (get_poll_results server str_exn dec poll_id base_url log)
  = snd (get_poll_results_with_error_handling server str_exn dec poll_id base_url log) /\
  (forall data message,
     fst (get_poll_results_with_error_handling server str_exn dec poll_id base_url log)
     = Ok (true, data, message) ->
     fst (get_poll_results server str_exn dec poll_id base_url log) = Ok data) /\
  (forall e,
     fst (get_poll_results server str_exn dec poll_id base_url log) = Raise e ->
     exists message,
       fst (get_poll_results_with_error_handling server str_exn dec poll_id base_url log)
       = Ok (false, PNone, message)).
Proof.
  unfold get_poll_results, get_poll_results_with_error_handling.
  run_io.
  destruct ((poll_id =? 0) || (poll_id <=? 0)).
  { split; [reflexivity|]. split; [discriminate | intros; eexists; reflexivity]. }
  unfold reraise_request_exception.
  destruct (server _) as [r|e0].
  - destruct (status_code r =? 200).
    + destruct (resp_json r) as [v|e0].
      * split; [reflexivity|]. split; [|discriminate].
        intros data message Heq. cbn [fst] in *. congruence.
      * destruct (is_connection_error e0), (is_timeout e0),
          (is_request_exception dec e0), (is_json_decode_error e0);
          (split; [reflexivity|]); (split; [discriminate | intros; eexists; reflexivity]).
    + destruct (status_code r =? 404).
      * split; [reflexivity|]. split; [discriminate | intros; eexists; reflexivity].
      * destruct (raise_for_status r) as [[]|e0].
        -- split; [reflexivity|]. split; [discriminate | intros; eexists; reflexivity].
        -- destruct (is_request_exception dec e0);
             (split; [reflexivity|]); (split; [discriminate | intros; eexists; reflexivity]).
  - destruct (is_connection_error e0), (is_timeout e0),
      (is_request_exception dec e0), (is_json_decode_error e0);
      (split; [reflexivity|]); (split; [discriminate | intros; eexists; reflexivity]).
Qed.

(** ** The formatter on well-formed reports *)

(** X17: format_poll_results returns a text, and raises nothing, on every
    input whose vote counts are non-negative and whose integers are all
    within the 4300-digit limit of int-to-str conversion: an absent report,
    an empty dict, a report without results, and any such results list. *)
Theorem format_poll_results_returns (results_data : option PollResultsReport) :
  (forall d, results_data = Some d ->
     (forall n, poll_id d = Some n -> within_str_digits n) /\
     (forall l, results d = Some l -> nonneg_counts l /\ printable_report d l)) ->
  exists text, format_poll_results results_data = Ok text.
Proof.
  intros Hwf. destruct results_data as [d|]; [|simpl; eauto].
  destruct (Hwf d eq_refl) as [_ Hnn].
  destruct (results d) as [l|] eqn:Hres.
  - destruct l as [|t l].
    + unfold format_poll_results. rewrite Hres.
      destruct (dict_is_empty d); eauto.
    + destruct (Hnn (t :: l) eq_refl) as [Hcounts _].
      rewrite (format_poll_results_ranked d (t :: l) Hres ltac:(discriminate)).
      destruct (blocks_total _ _ (ranked_within_total _ Hcounts)) as (blocks & -> & _).
      cbn [rbind]. eauto.
  - unfold format_poll_results. rewrite Hres.
    destruct (dict_is_empty d); eauto.
Qed.

Lemma format_poll_results_returns_witness :
  exists text,
    format_poll_results (Some (report_of [tally_red; tally_blank; tally_blue]))
    = Ok text.
Proof.
  apply (format_poll_results_returns
           (Some (report_of [tally_red; tally_blank; tally_blue]))).
  intros d Hd. injection Hd as <-. split.
  - intros n Hn. injection Hn as <-. reflexivity.
  - intros l Hl. injection Hl as <-. split; [nonneg_counts_tac|].
    split; [|split; [|split]].
    + intros n Hn. injection Hn as <-. reflexivity.
    + repeat (apply Forall_cons;
                [intros n Hn; try discriminate Hn; injection Hn as <-; reflexivity|]).
      apply Forall_nil.
    + reflexivity.
    + reflexivity.
Defined.

(** Outside the data model the division can overflow: a count of 2^1024
    against a total of 1 makes the formatter raise OverflowError. *)
Example format_poll_results_overflow :
  format_poll_results
    (Some (report_of
             [{| option_id := Some 1; text := Some "A"; vote_count := Some (2 ^ 1024) |};
              {| option_id := Some 2; text := Some "B";
                 vote_count := Some (1 - 2 ^ 1024) |}]))
  = Raise (OverflowError "integer division result too large for a float").
Proof. vm_compute. reflexivity. Qed.

(** ** The poll id in the URL *)

Lemma str_of_int_injective (n m : Z) : str_of_int n = str_of_int m -> n = m.
Proof.
  unfold str_of_int. intros Heq.
  apply DecimalZ.to_int_inj.
  assert (Hparse : forall z,
    NilZero.int_of_string (NilZero.string_of_int (Z.to_int z)) = Some (Z.to_int z)).
  { intros z. apply NilZero.isi; destruct z as [|p|p]; simpl; try discriminate;
      intros [= Hnil]; exact (DecimalPos.Unsigned.to_uint_nonnil p Hnil). }
  pose proof (Hparse n) as Hn. rewrite Heq, Hparse in Hn. congruence.
Qed.

Lemma string_app_cancel_l (a b c : string) : (a ++ b = a ++ c -> b = c)%string.
Proof.
  induction a as [|ch a IH]; simpl; intros Heq; [exact Heq|].
  injection Heq as Heq. now apply IH.
Qed.

Lemma string_app_cancel_r (a b c : string) : (a ++ c = b ++ c -> a = b)%string.
Proof.
  revert b. induction a as [|x a IH]; intros [|y b] Heq; simpl in Heq.
  - reflexivity.
  - apply (f_equal String.length) in Heq. simpl in Heq.
    rewrite string_length_app in Heq. lia.
  - apply (f_equal String.length) in Heq. simpl in Heq.
    rewrite string_length_app in Heq. lia.
  - injection Heq as -> Heq. f_equal. now apply IH.
Qed.

(** X18: under one base URL, two poll ids that give the same results URL, or
    the same vote request, are the same id, and two vote requests that
    coincide carry the same option id and the same access token. *)
Theorem poll_id_is_read_back_from_request (base_url : string) :
  (forall p q, results_url base_url p = results_url base_url q -> p = q) /\
  (forall p q option_id option_id' token token',
     vote_request base_url p option_id token
     = vote_request base_url q option_id' token' ->
     p = q /\ option_id = option_id' /\ token = token').
Proof.
  split.
  - intros p q Heq. unfold results_url in Heq.
    apply string_app_cancel_l, string_app_cancel_l in Heq.
    apply string_app_cancel_r in Heq. now apply str_of_int_injective.
  - intros p q option_id option_id' token token' Heq.
    unfold vote_request, mk_post in Heq.
    injection Heq as Hurl Hoption Htoken.
    apply string_app_cancel_l in Hurl. injection Hurl as Hurl.
    apply string_app_cancel_r in Hurl.
    apply str_of_int_injective in Hurl.
    auto.
Qed.

Lemma poll_id_is_read_back_from_request_witness :
  results_url local_url 12 = results_url local_url 12 /\ 12 = 12.
Proof.
  split; [reflexivity|].
  apply (proj1 (poll_id_is_read_back_from_request local_url) 12 12). reflexivity.
Defined.

(** ** When the triple form succeeds *)

(** X15: get_poll_results_with_error_handling never raises, and it reports
    success exactly when the poll id is positive and the server answered its
    request with status 200 and a body that decodes; the data of a success
    is that decoded body and its message is None, and the data of a failure
    is None. *)
Theorem error_handling_succeeds_exactly_on_200 (server : request -> outcome)
    (str_exn : exn -> string) (dec : bool) (poll_id : Z) (base_url : string)
    (log : list request) :
  exists success data message,
    fst (get_poll_results_with_error_handling server str_exn dec poll_id base_url log)
    = Ok (success, data, message) /\
    (success = true <->
     0 < poll_id /\
     exists resp,
       server (results_request base_url poll_id) = Responds resp /\
       status_code resp = 200 /\ resp_json resp = Ok data) /\
    (success = true -> message = PNone) /\
    (success = false -> data = PNone).
Proof.
  unfold get_poll_results_with_error_handling.
  destruct ((poll_id =? 0) || (poll_id <=? 0)) eqn:Hguard.
  { do 3 eexists. split; [reflexivity|]. split; [|split; [discriminate|reflexivity]].
    split; [discriminate|].
    intros [Hp _]. apply orb_true_iff in Hguard.
    destruct Hguard as [H0|H0]; [apply Z.eqb_eq in H0 | apply Z.leb_le in H0]; lia. }
  apply orb_false_iff in Hguard. destruct Hguard as [_ Hpos].
  apply Z.leb_gt in Hpos.
  run_io. fold (results_url base_url poll_id).
  change (mk_get (results_url base_url poll_id) [])
    with (results_request base_url poll_id).
  assert (Hfailure : forall (message : pyobj) (l : list request),
    (forall resp,
       server (results_request base_url poll_id) = Responds resp ->
       status_code resp = 200 -> forall v, resp_json resp <> Ok v) ->
    exists success data message0,
      fst (@Ok (bool * pyobj * pyobj) (false, PNone, message), l)
      = Ok (success, data, message0) /\
      (success = true <->
       0 < poll_id /\
       exists resp,
         server (results_request base_url poll_id) = Responds resp /\
         status_code resp = 200 /\ resp_json resp = Ok data) /\
      (success = true -> message0 = PNone) /\
      (success = false -> data = PNone)).
  { intros message l Hno. exists false, PNone, message.
    split; [reflexivity|]. split; [|split; [discriminate|reflexivity]].
    split; [discriminate|].
    intros (_ & resp & Hs & H200 & Hbody). exfalso. exact (Hno resp Hs H200 _ Hbody). }
  destruct (server (results_request base_url poll_id)) as [r|e] eqn:Hserver.
  - destruct (status_code r =? 200) eqn:H200.
    + apply Z.eqb_eq in H200.
      destruct (resp_json r) as [v|e] eqn:Hbody.
      * exists true, v, PNone. split; [reflexivity|].
        split; [|split; [reflexivity|discriminate]].
        split; [|reflexivity].
        intros _. split; [exact Hpos|]. exists r. auto.
      * assert (Hno : forall resp,
          Responds r = Responds resp ->
          status_code resp = 200 -> forall v, resp_json resp <> Ok v).
        { intros resp [= <-] _ v. congruence. }
        destruct (is_connection_error e), (is_timeout e),
          (is_request_exception dec e), (is_json_decode_error e);
          apply Hfailure; exact Hno.
    + apply Z.eqb_neq in H200.
      assert (Hno : forall resp,
        Responds r = Responds resp ->
        status_code resp = 200 -> forall v, resp_json resp <> Ok v).
      { intros resp [= <-] Hcode. contradiction. }
      destruct (status_code r =? 404); apply Hfailure; exact Hno.
  - assert (Hno : forall resp,
      Fails e = Responds resp ->
      status_code resp = 200 -> forall v, resp_json resp <> Ok v).
    { intros resp Habs. discriminate Habs. }
    destruct (is_connection_error e), (is_timeout e),
      (is_request_exception dec e), (is_json_decode_error e);
      apply Hfailure; exact Hno.
Qed.

(** ** How close the shown percentage is *)

Lemma abs_scaled_le (c x y k : Z) :
  0 <= c -> 0 <= k -> c * Z.abs x <= y -> c * Z.abs (x * k) <= y * k.
Proof.
  intros Hc Hk Hx. rewrite Z.abs_mul, (Z.abs_eq k) by lia.
  pose proof (Z.abs_nonneg x). nia.
Qed.

(** Rounding a quotient whose exponent stays at or below [- s] moves it by at
    most [2^(- s - 1)]: with [m * 2^e] the rounded value,
    [2^(s+1) * |m * 2^e - n / d| <= 1], here cleared of its divisions. *)
Lemma round_to_double_error (neg : bool) (n d s : Z) :
  0 < d -> 0 <= n -> 1 <= s <= 1074 ->
  PyFloat.floor_log2_ratio n d - 52 <= - s ->
  exists m e,
    PyFloat.round_to_double neg n d = Some (PyFloat.Finite neg m e) /\
    e <= 0 /\
    2 ^ (s + 1) * Z.abs (m * d - n * 2 ^ (- e)) <= d * 2 ^ (- e).
Proof.
  intros Hd Hn Hs Hk. unfold PyFloat.round_to_double.
  destruct (n =? 0) eqn:Hn0.
  { apply Z.eqb_eq in Hn0. subst n. exists 0, 0. split; [reflexivity|].
    split; [lia|]. simpl (0 * d - 0 * _). simpl Z.abs. lia. }
  cbv zeta.
  set (e := Z.max (PyFloat.floor_log2_ratio n d - 52) (-1074)) in *.
  assert (He : e <= - s) by (unfold e; lia).
  replace (971 <? e) with false by (symmetry; apply Z.ltb_ge; lia).
  replace (e =? 971) with false by (symmetry; apply Z.eqb_neq; lia).
  assert (Hpow2 : 2 ^ (s + 1) = 2 * 2 ^ s).
  { replace (s + 1) with (Z.succ s) by lia. apply Z.pow_succ_r. lia. }
  assert (Hs0 : 0 < 2 ^ s) by (apply Z.pow_pos_nonneg; lia).
  unfold PyFloat.scaled_round.
  replace (0 <=? e) with false by (symmetry; apply Z.leb_gt; lia).
  pose proof (round_half_even_nearest (n * 2 ^ (- e)) d Hd) as Hnear.
  set (m := PyFloat.round_half_even (n * 2 ^ (- e)) d) in *.
  destruct (m =? 2 ^ 53) eqn:Hcarry.
  - apply Z.eqb_eq in Hcarry.
    exists (2 ^ 52), (e + 1). split; [reflexivity|]. split; [lia|].
    assert (Hsplit : 2 ^ (- e) = 2 * 2 ^ (- (e + 1))).
    { replace (- e) with (Z.succ (- (e + 1))) by lia. apply Z.pow_succ_r. lia. }
    assert (Hmono : 2 ^ s <= 2 * 2 ^ (- (e + 1))).
    { rewrite <- Hsplit. apply Z.pow_le_mono_r; lia. }
    rewrite Hcarry, Hsplit in Hnear. change (2 ^ 53) with (2 * 2 ^ 52) in Hnear.
    set (P := 2 ^ (- (e + 1))) in *.
    replace (2 * (n * (2 * P) - 2 * 2 ^ 52 * d))
      with (-4 * (2 ^ 52 * d - n * P)) in Hnear by ring.
    rewrite Z.abs_mul in Hnear. change (Z.abs (-4)) with 4 in Hnear.
    rewrite Hpow2.
    pose proof (Z.abs_nonneg (2 ^ 52 * d - n * P)). nia.
  - exists m, e. split; [reflexivity|]. split; [lia|].
    assert (Hmono : 2 ^ s <= 2 ^ (- e)) by (apply Z.pow_le_mono_r; lia).
    set (P := 2 ^ (- e)) in *.
    replace (2 * (n * P - m * d)) with (-2 * (m * d - n * P)) in Hnear by ring.
    rewrite Z.abs_mul in Hnear. change (Z.abs (-2)) with 2 in Hnear.
    rewrite Hpow2.
    pose proof (Z.abs_nonneg (m * d - n * P)). nia.
Qed.

Lemma floor_log2_ratio_small (n d : Z) :
  0 < d -> 0 <= n <= 128 * d -> PyFloat.floor_log2_ratio n d <= 7.
Proof.
  intros Hd Hn. pose proof (floor_log2_ratio_upper n d) as Hk.
  assert (Z.log2 n <= 7 + Z.log2 d); [|lia].
  rewrite <- (Z.log2_mul_pow2 d 7) by lia.
  apply Z.log2_le_mono. change (2 ^ 7) with 128. lia.
Qed.

(** The three roundings together: the quotient to a float [m / P], its
    product by 100 to a float [m' / P'], and that float to [t] tenths. *)
Lemma percentage_error_budget (a b m P m' P' t : Z) :
  0 < b -> 0 < P -> 0 < P' ->
  2 ^ 53 * Z.abs (m * b - a * P) <= b * P ->
  2 ^ 46 * Z.abs (m' * P - m * 100 * P') <= P * P' ->
  Z.abs (2 * (m' * 10 - t * P')) <= P' ->
  2 ^ 42 * Z.abs (t * b - 1000 * a) <= (2 ^ 41 + 2) * b.
Proof.
  intros Hb HP HP' Hquot Hprod Htenths.
  set (K := b * (P * P')).
  assert (HK : 0 < K) by (unfold K; nia).
  assert (H1 : 2 ^ 53 * Z.abs ((m * b - a * P) * P') <= K).
  { replace K with (b * P * P') by (unfold K; ring).
    apply abs_scaled_le; lia. }
  assert (H2 : 2 ^ 46 * Z.abs ((m' * P - m * 100 * P') * b) <= K).
  { replace K with (P * P' * b) by (unfold K; ring).
    apply abs_scaled_le; lia. }
  assert (H3 : 1 * Z.abs (2 * (m' * 10 - t * P') * (b * P)) <= K).
  { replace K with (P' * (b * P)) by (unfold K; ring).
    apply abs_scaled_le; lia. }
  assert (Hsplit : (t * b - 1000 * a) * (P * P')
                   = 1000 * ((m * b - a * P) * P')
                     + 10 * ((m' * P - m * 100 * P') * b)
                     - (m' * 10 - t * P') * (b * P)) by ring.
  assert (Hscaled : 2 ^ 53 * Z.abs ((t * b - 1000 * a) * (P * P'))
                    <= (2 ^ 52 + 2280) * K).
  { rewrite Hsplit.
    set (x1 := (m * b - a * P) * P') in *.
    set (x2 := (m' * P - m * 100 * P') * b) in *.
    replace (2 * (m' * 10 - t * P') * (b * P))
      with (2 * ((m' * 10 - t * P') * (b * P))) in H3 by ring.
    set (x3 := (m' * 10 - t * P') * (b * P)) in *.
    change (2 ^ 53) with 9007199254740992 in *.
    change (2 ^ 52) with 4503599627370496.
    change (2 ^ 46) with 70368744177664 in *.
    lia. }
  rewrite Z.abs_mul, (Z.abs_eq (P * P')) in Hscaled by nia.
  assert (Hcancel : 2 ^ 53 * Z.abs (t * b - 1000 * a) <= (2 ^ 52 + 2280) * b).
  { apply (Z.mul_le_mono_pos_r _ _ (P * P')); [nia|].
    unfold K in Hscaled.
    replace (2 ^ 53 * Z.abs (t * b - 1000 * a) * (P * P'))
      with (2 ^ 53 * (Z.abs (t * b - 1000 * a) * (P * P'))) by ring.
    replace ((2 ^ 52 + 2280) * b * (P * P'))
      with ((2 ^ 52 + 2280) * (b * (P * P'))) by ring.
    exact Hscaled. }
  change (2 ^ 53) with (2048 * 2 ^ 42) in Hcancel.
  change (2 ^ 52) with (2048 * 2 ^ 41) in Hcancel.
  pose proof (Z.abs_nonneg (t * b - 1000 * a)). lia.
Qed.

(** With 0 <= vote_count <= total_votes the percentage shown, as tenths, is
    within half a tenth (and a margin of 2^-41 of it) of
    1000 * vote_count / total_votes. *)
Lemma shown_percentage_accurate (vote_count total_votes : Z) :
  0 <= vote_count <= total_votes ->
  exists tenths,
    shown_percentage vote_count total_votes = Ok (one_decimal tenths) /\
    2 ^ 42 * Z.abs (tenths * total_votes - 1000 * vote_count)
    <= (2 ^ 41 + 2) * total_votes.
Proof.
  intros Hv. unfold shown_percentage, percentage.
  destruct (0 <? total_votes) eqn:Ht.
  2:{ apply Z.ltb_ge in Ht. exists 0. split; [reflexivity|].
      assert (vote_count = 0) by lia. assert (total_votes = 0) by lia.
      subst. reflexivity. }
  apply Z.ltb_lt in Ht.
  unfold PyFloat.int_truediv.
  replace (total_votes =? 0) with false by (symmetry; apply Z.eqb_neq; lia).
  replace (vote_count <? 0) with false by (symmetry; apply Z.ltb_ge; lia).
  replace (total_votes <? 0) with false by (symmetry; apply Z.ltb_ge; lia).
  rewrite (Z.abs_eq vote_count), (Z.abs_eq total_votes) by lia.
  cbv zeta. simpl xorb.
  assert (Hk : PyFloat.floor_log2_ratio vote_count total_votes - 52 <= - 52).
  { pose proof (floor_log2_ratio_upper vote_count total_votes).
    assert (Z.log2 vote_count <= Z.log2 total_votes)
      by (apply Z.log2_le_mono; lia).
    lia. }
  destruct (round_to_double_bounded false vote_count total_votes 1 Ht
              ltac:(lia) ltac:(lia)) as (m & e & Hq & He & Hm).
  destruct (round_to_double_error false vote_count total_votes 52 Ht
              ltac:(lia) ltac:(lia) Hk) as (m1 & e1 & Hq1 & _ & Herr).
  rewrite Hq in Hq1. injection Hq1 as <- <-.
  rewrite Hq. cbn [rbind format_number_1f]. unfold PyFloat.mul_int.
  set (P := 2 ^ (- e)) in *.
  assert (HP : 0 < P) by (apply Z.pow_pos_nonneg; lia).
  assert (Hprod :
    exists m' e',
      (if 0 <=? e then PyFloat.round_to_double false (m * 100 * 2 ^ e) 1
       else PyFloat.round_to_double false (m * 100) P)
      = Some (PyFloat.Finite false m' e') /\
      e' <= 0 /\
      2 ^ 46 * Z.abs (m' * P - m * 100 * 2 ^ (- e')) <= P * 2 ^ (- e')).
  { destruct (0 <=? e) eqn:He0.
    - apply Z.leb_le in He0. assert (e = 0) by lia. subst e.
      change (2 ^ (- 0)) with 1 in P. subst P. change (2 ^ 0) with 1.
      rewrite Z.mul_1_r.
      destruct (round_to_double_error false (m * 100) 1 45 ltac:(lia)
                  ltac:(lia) ltac:(lia)) as (m' & e' & Hy & He' & Herr').
      { pose proof (floor_log2_ratio_small (m * 100) 1 ltac:(lia) ltac:(lia)).
        lia. }
      exists m', e'. split; [exact Hy|]. split; [exact He'|].
      change (45 + 1) with 46 in Herr'. exact Herr'.
    - destruct (round_to_double_error false (m * 100) P 45 HP
                  ltac:(lia) ltac:(lia)) as (m' & e' & Hy & He' & Herr').
      { pose proof (floor_log2_ratio_small (m * 100) P HP ltac:(nia)).
        lia. }
      exists m', e'. split; [exact Hy|]. split; [exact He'|].
      change (45 + 1) with 46 in Herr'. exact Herr'. }
  destruct Hprod as (m' & e' & -> & He' & Herr').
  unfold PyFloat.format_1f.
  set (P' := 2 ^ (- e')) in *.
  assert (HP' : 0 < P') by (apply Z.pow_pos_nonneg; lia).
  exists (PyFloat.scaled_round (m' * 10) 1 (- e')).
  split; [reflexivity|].
  unfold PyFloat.scaled_round.
  replace (0 <=? - e') with true by (symmetry; apply Z.leb_le; lia).
  fold P'. rewrite Z.mul_1_l.
  pose proof (round_half_even_nearest (m' * 10) P' HP') as Htenths.
  change (52 + 1) with 53 in Herr.
  eapply (percentage_error_budget vote_count total_votes m P m' P'); eauto.
Qed.

Lemma rmap_ext {A B : Type} (f g : A -> result B) (l : list A) :
  (forall a, f a = g a) -> rmap f l = rmap g l.
Proof.
  intros Hfg. induction l as [|a l IH]; simpl; [reflexivity|].
  now rewrite Hfg, IH.
Qed.

Lemma Forall2_refine {A B : Type} (P : A -> Prop) (R R' : A -> B -> Prop)
    (l : list A) (l' : list B) :
  (forall a b, P a -> R a b -> R' a b) ->
  Forall P l -> Forall2 R l l' -> Forall2 R' l l'.
Proof.
  intros Himp HP HR. induction HR as [|a b l l' Hab _ IH]; [constructor|].
  inversion HP; subst. constructor; auto.
Qed.

(** The block of an entry, written with the division spelled out. *)
Lemma option_block_by_formula (total_votes : Z) (entry : Z * OptionTally) :
  option_block total_votes entry
  = if 0 <? total_votes
    then (ratio <- PyFloat.int_truediv (get_vote_count (snd entry)) total_votes ;;
          Ok (block_text (fst entry) (snd entry)
                (PyFloat.format_1f (PyFloat.mul_int ratio 100))))%result
    else Ok (block_text (fst entry) (snd entry) "0.0").
Proof.
  destruct entry as [i t]. unfold option_block, percentage, block_text.
  cbn [fst snd].
  destruct (0 <? total_votes); [|reflexivity].
  destruct (PyFloat.int_truediv (get_vote_count t) total_votes); reflexivity.
Qed.

(** ** Division by zero *)

(** C4: no input makes format_poll_results raise ZeroDivisionError. On a
    non-empty results list the report is the header, the total line and, for
    each ranked entry, the block whose percentage is the one-decimal text of
    vote_count / total_votes * 100 when total_votes > 0 (the total being the
    sum of the counts) and "0.0" otherwise; with non-negative counts the
    percentage each block shows is, in tenths, within half a tenth (and a
    margin of 2^-41 of it) of 1000 * vote_count / total_votes. The division
    is by zero only with a zero divisor, which the guard excludes. On an
    empty results list the text is the header followed by
    "No votes cast yet." and no block. *)
Theorem C4_no_division_by_zero (r : option PollResultsReport)
    (d : PollResultsReport) (l : list OptionTally)
    (vote_count total_votes : Z) (pid : option Z) (q : option string) (msg : string) :
  format_poll_results r <> Raise (ZeroDivisionError msg) /\
  (results d = Some l -> l <> [] ->
   format_poll_results (Some d)
   = (blocks <-
        rmap (fun entry : Z * OptionTally =>
                if 0 <? votes_cast l
                then (ratio <- PyFloat.int_truediv (get_vote_count (snd entry))
                                 (votes_cast l) ;;
                      Ok (block_text (fst entry) (snd entry)
                            (PyFloat.format_1f (PyFloat.mul_int ratio 100))))
                else Ok (block_text (fst entry) (snd entry) "0.0"))
          (enumerate 1 (sorted_reverse get_vote_count l)) ;;
      Ok (header d ++ total_line (votes_cast l) ++ concat_strings blocks))%result /\
   (nonneg_counts l ->
    exists blocks,
      format_poll_results (Some d)
      = Ok (header d ++ total_line (votes_cast l) ++ concat_strings blocks) /\
      Forall2 (fun entry block =>
                 exists tenths,
                   block = block_text (fst entry) (snd entry) (one_decimal tenths) /\
                   2 ^ 42 * Z.abs (tenths * votes_cast l
                                   - 1000 * get_vote_count (snd entry))
                   <= (2 ^ 41 + 2) * votes_cast l)
        (enumerate 1 (sorted_reverse get_vote_count l)) blocks)) /\
  percentage vote_count total_votes <> Raise (ZeroDivisionError msg) /\
  (if 0 <? total_votes
   then PyFloat.int_truediv vote_count total_votes <> Raise (ZeroDivisionError msg)
   else PyFloat.int_truediv vote_count 0 = Raise (ZeroDivisionError "division by zero")) /\
  format_number_1f (NInt 0) = Ok "0.0" /\
  let d := {| poll_id := pid; question := q; results := Some [] |} in
  format_poll_results (Some d) = Ok (header d ++ "No votes cast yet." ++ newline) /\
  contains "No votes cast yet." (header d ++ "No votes cast yet." ++ newline) = true.
Proof.
  split; [|split; [|split; [|split; [|split; [|intros d0; split]]]]].
  - destruct r as [d0|]; [|discriminate].
    unfold format_poll_results.
    destruct (dict_is_empty d0); [discriminate|].
    destruct (match results d0 with Some l0 => l0 | None => [] end) as [|t l0];
      [discriminate|].
    set (ranked := sorted_reverse get_vote_count (t :: l0)).
    pose proof (rmap_never (option_block (sum_by get_vote_count ranked))
                  (ZeroDivisionError msg) (enumerate 1 ranked)
                  (fun entry => option_block_no_zero_division _ entry msg)) as Hb.
    destruct (rmap _ _) as [blocks|e]; cbn [rbind]; [discriminate|].
    intros Heq. apply Hb. congruence.
  - intros Hres Hne. split.
    + rewrite (format_poll_results_ranked d l Hres Hne).
      rewrite (rmap_ext _ _ _ (option_block_by_formula (votes_cast l))).
      reflexivity.
    + intros Hnn.
      pose proof (ranked_within_total l Hnn) as Hwithin.
      destruct (blocks_total _ _ Hwithin) as (blocks & Hb & Hall).
      exists blocks. split.
      * rewrite (format_poll_results_ranked d l Hres Hne), Hb. reflexivity.
      * eapply (Forall2_refine
                  (fun entry => 0 <= get_vote_count (snd entry) <= votes_cast l));
          [| |exact Hall].
        -- intros [i t] b Hv Hblock. cbn [fst snd] in *.
           destruct (shown_percentage_accurate _ _ Hv) as (tenths & Hs & Hacc).
           exists tenths. split; [|exact Hacc].
           rewrite option_block_shown, Hs in Hblock. cbn [rbind] in Hblock.
           congruence.
        -- apply Forall_forall. intros [i t] Hin. cbn [snd].
           apply enumerate_In in Hin.
           rewrite Forall_forall in Hwithin. now apply Hwithin.
  - apply percentage_no_zero_division.
  - destruct (0 <? total_votes) eqn:Ht.
    + apply Z.ltb_lt in Ht. now apply int_truediv_positive_divisor.
    + reflexivity.
  - reflexivity.
  - subst d0. destruct pid, q; reflexivity.
  - apply contains_app_r. reflexivity.
Qed.

Lemma C4_no_division_by_zero_witness :
  nonneg_counts [tally_B; tally_A] /\
  exists blocks,
    format_poll_results (Some (report_of [tally_B; tally_A]))
    = Ok (header (report_of [tally_B; tally_A])
          ++ total_line (votes_cast [tally_B; tally_A]) ++ concat_strings blocks) /\
    Forall2 (fun entry block =>
               exists tenths,
                 block = block_text (fst entry) (snd entry) (one_decimal tenths) /\
                 2 ^ 42 * Z.abs (tenths * votes_cast [tally_B; tally_A]
                                 - 1000 * get_vote_count (snd entry))
                 <= (2 ^ 41 + 2) * votes_cast [tally_B; tally_A])
      (enumerate 1 (sorted_reverse get_vote_count [tally_B; tally_A])) blocks.
Proof.
  assert (Hnn : nonneg_counts [tally_B; tally_A]) by nonneg_counts_tac.
  split; [exact Hnn|].
  apply (proj2 (proj1 (proj2 (C4_no_division_by_zero None
                                (report_of [tally_B; tally_A]) [tally_B; tally_A]
                                0 0 None None ""))
                  eq_refl ltac:(discriminate))).
  exact Hnn.
Defined.
